(** * ATS résumé analyser: the /analyze adapter of [app.py]

    A shallow embedding of [app.py]: the JSON values the program passes
    around, the base64 encoding of the uploaded file, the retry loop of
    [call_gemini_api_with_backoff] and the request handler
    [analyze_resume], followed by the properties of the adapter's contract.

    Python exceptions are explicit results, the outbound HTTP call, the
    sleeps and the console output are events of a log threaded through a
    state-and-exception monad, and the parts of the Python runtime that
    the program only calls (the JSON decoder, [repr], the console, the
    remote service) are the fields of the class [Runtime], over which the
    program and its properties are stated. *)

From Stdlib Require Import ZArith List String Ascii Bool Lia DecimalString.
From Stdlib.Strings Require Import Byte.
Import ListNotations.
Local Open Scope string_scope.
Local Open Scope Z_scope.
Set Warnings "-register-all".

(** ** Python values *)

(** What [json.loads] and [response.json()] can return, and what the
    program builds for [json.dumps] and [jsonify].  A [dict] keeps its
    insertion order, so it is a list of entries; every key is a string.
    A float is its IEEE-754 binary64 bit pattern: the program never
    computes with one. *)
Inductive value : Type :=
| VNone
| VBool (b : bool)
| VInt (n : Z)
| VFloat (bits : Z)
| VStr (s : string)
| VList (items : list value)
| VDict (entries : list (string * value)).

(** [type(v).__name__] *)
Definition type_name (v : value) : string :=
  match v with
  | VNone => "NoneType"
  | VBool _ => "bool"
  | VInt _ => "int"
  | VFloat _ => "float"
  | VStr _ => "str"
  | VList _ => "list"
  | VDict _ => "dict"
  end.

(** Entry of a dict under a key, [None] when the key is absent. *)
Fixpoint dict_lookup (key : string) (entries : list (string * value)) : option value :=
  match entries with
  | [] => None
  | (k, v) :: rest => if String.eqb k key then Some v else dict_lookup key rest
  end.

Definition dict_has (key : string) (entries : list (string * value)) : bool :=
  match dict_lookup key entries with Some _ => true | None => false end.

(** [x == VStr key] for a list element [x]: a string equals only a string. *)
Definition is_str (key : string) (x : value) : bool :=
  match x with VStr s => String.eqb s key | _ => false end.

(** [needle in hay] on two strings: [needle] occurs as a contiguous run. *)
Fixpoint contains (needle hay : string) : bool :=
  prefix needle hay
  || match hay with
     | EmptyString => false
     | String _ rest => contains needle rest
     end.

(** [str(n)] for a Python int. *)
Definition str_of_Z (n : Z) : string := NilZero.string_of_int (Z.to_int n).

(** ** Base64 ([base64.b64encode]) *)

Definition b64_alphabet : string :=
  "ABCDEFGHIJKLMNOPQRSTUVWXYZabcdefghijklmnopqrstuvwxyz0123456789+/".

Definition b64_pad : ascii := "="%char.

(** The character of a six-bit group. *)
Definition b64_char (n : N) : ascii :=
  match String.get (N.to_nat n) b64_alphabet with
  | Some c => c
  | None => b64_pad
  end.

(** Three bytes give four characters; one or two trailing bytes give two
    or three characters and padding. *)
Fixpoint b64encode (bs : list byte) : string :=
  match bs with
  | [] => EmptyString
  | [a] =>
      let x := Byte.to_N a in
      String (b64_char (N.shiftr x 2))
     (String (b64_char (N.shiftl (N.land x 3) 4))
     (String b64_pad (String b64_pad EmptyString)))
  | [a; b] =>
      let x := Byte.to_N a in
      let y := Byte.to_N b in
      String (b64_char (N.shiftr x 2))
     (String (b64_char (N.lor (N.shiftl (N.land x 3) 4) (N.shiftr y 4)))
     (String (b64_char (N.shiftl (N.land y 15) 2))
     (String b64_pad EmptyString)))
  | a :: b :: c :: rest =>
      let x := Byte.to_N a in
      let y := Byte.to_N b in
      let z := Byte.to_N c in
      String (b64_char (N.shiftr x 2))
     (String (b64_char (N.lor (N.shiftl (N.land x 3) 4) (N.shiftr y 4)))
     (String (b64_char (N.lor (N.shiftl (N.land y 15) 2) (N.shiftr z 6)))
     (String (b64_char (N.land z 63))
     (b64encode rest))))
  end.

(** The six-bit group of a character of the alphabet. *)
Definition b64_index (c : ascii) : option N :=
  let n := N_of_ascii c in
  if (65 <=? n)%N && (n <=? 90)%N then Some (n - 65)%N
  else if (97 <=? n)%N && (n <=? 122)%N then Some (n - 71)%N
  else if (48 <=? n)%N && (n <=? 57)%N then Some (n + 4)%N
  else if (n =? 43)%N then Some 62%N
  else if (n =? 47)%N then Some 63%N
  else None.

Definition byte_of_N (n : N) : byte :=
  match Byte.of_N n with Some b => b | None => x00 end.

(** The inverse of [b64encode] on padded text; used to state that the
    encoding loses nothing. *)
Fixpoint b64decode_chars (fuel : nat) (cs : list ascii) : option (list byte) :=
  match fuel with
  | O => None
  | S fuel' =>
      match cs with
      | [] => Some []
      | [c1; c2; p3; p4] =>
          match b64_index c1, b64_index c2, b64_index p3, b64_index p4 with
          | Some i1, Some i2, Some i3, Some i4 =>
              Some [byte_of_N (N.lor (N.shiftl i1 2) (N.shiftr i2 4));
                    byte_of_N (N.lor (N.shiftl (N.land i2 15) 4) (N.shiftr i3 2));
                    byte_of_N (N.lor (N.shiftl (N.land i3 3) 6) i4)]
          | Some i1, Some i2, Some i3, None =>
              if Ascii.eqb p4 b64_pad then
                Some [byte_of_N (N.lor (N.shiftl i1 2) (N.shiftr i2 4));
                      byte_of_N (N.lor (N.shiftl (N.land i2 15) 4) (N.shiftr i3 2))]
              else None
          | Some i1, Some i2, None, None =>
              if Ascii.eqb p3 b64_pad && Ascii.eqb p4 b64_pad then
                Some [byte_of_N (N.lor (N.shiftl i1 2) (N.shiftr i2 4))]
              else None
          | _, _, _, _ => None
          end
      | c1 :: c2 :: c3 :: c4 :: rest =>
          match b64_index c1, b64_index c2, b64_index c3, b64_index c4,
                b64decode_chars fuel' rest with
          | Some i1, Some i2, Some i3, Some i4, Some tail =>
              Some (byte_of_N (N.lor (N.shiftl i1 2) (N.shiftr i2 4))
                 :: byte_of_N (N.lor (N.shiftl (N.land i2 15) 4) (N.shiftr i3 2))
                 :: byte_of_N (N.lor (N.shiftl (N.land i3 3) 6) i4)
                 :: tail)
          | _, _, _, _, _ => None
          end
      | _ => None
      end
  end.

Definition b64decode (s : string) : option (list byte) :=
  let cs := list_ascii_of_string s in
  b64decode_chars (S (List.length cs)) cs.

Definition bytes_of_string (s : string) : list byte := list_byte_of_string s.


(** ** Exceptions, effects and the runtime *)

(** The exception classes the program can meet.  [RequestException]
    stands for [requests.exceptions.RequestException] and its subclasses
    (connection errors, timeouts, the [HTTPError] of [raise_for_status]);
    [PlainException] for a bare [Exception(...)]; [OtherException] for
    any other subclass of [Exception]. *)
Inductive exn_class : Type :=
| RequestException
| PlainException
| KeyError
| IndexError
| TypeError
| AttributeError
| JSONDecodeError
| RecursionError
| ValueError
| UnicodeEncodeError
| OtherException.

(** An exception: its class and its [str(e)]. *)
Record exn : Type := mk_exn { exn_class_of : exn_class; exn_str : string }.

Inductive result (A : Type) : Type :=
| Ok (a : A)
| Raise (e : exn).
Arguments Ok {A} a.
Arguments Raise {A} e.

(** What the program does to the outside: one HTTP POST of a payload,
    [time.sleep], [print]. *)
Inductive event : Type :=
| Post (payload : value)
| Sleep (seconds : Z)
| Print (line : string).

(** The state one request runs in: whether the upload stream has been
    read to its end, and the events so far, oldest first. *)
Record state : Type := mk_state { upload_read : bool; log : list event }.

Definition initial_state : state := mk_state false [].

Definition is_post (ev : event) : bool :=
  match ev with Post _ => true | _ => false end.

(** Number of HTTP requests sent so far. *)
Definition attempts_made (l : list event) : nat := List.length (filter is_post l).

(** Durations of the sleeps so far, oldest first. *)
Fixpoint sleeps (l : list event) : list Z :=
  match l with
  | [] => []
  | Sleep s :: rest => s :: sleeps rest
  | _ :: rest => sleeps rest
  end.

(** The parts of the Python runtime and of the network that the program
    calls and does not define.
    - [py_repr v] is [repr(v)];
    - [json_loads s] is [json.loads(s)]: [Ok v] when it returns [v] and
      [Raise e] when it raises [e], which is a [JSONDecodeError] on a text
      that is not JSON, but also a [RecursionError] on brackets nested too
      deep and a [ValueError] on an integer of too many digits;
    - [console_rejects line] is the exception that [print(line)] raises
      when the encoder of the console cannot take the text (a
      [UnicodeEncodeError], as on a lone surrogate, which a JSON escape
      decodes to), [None] when the console writes the line;
    - [http_exchange n payload] is the outcome of the [n]-th POST (from 0)
      of the request being handled, that is of lines 53 to 56,
      [requests.post], [raise_for_status] and [response.json()] together:
      [Ok body] when all three return and [body] is the decoded reply,
      [Raise e] when one of them raises [e]. *)
Class Runtime : Type := {
  py_repr : value -> string;
  json_loads : string -> result value;
  console_rejects : string -> option exn;
  http_exchange : nat -> value -> result value
}.

(** Computations: state passing with exceptions. *)
Definition M (A : Type) : Type := state -> result A * state.

Definition ret {A} (a : A) : M A := fun st => (Ok a, st).

Definition bind {A B} (c : M A) (k : A -> M B) : M B :=
  fun st =>
    match c st with
    | (Ok a, st') => k a st'
    | (Raise e, st') => (Raise e, st')
    end.

Definition raise {A} (e : exn) : M A := fun st => (Raise e, st).

Definition lift {A} (r : result A) : M A := fun st => (r, st).

(** [try: c  except <classes accepted by handles> as e: h e] *)
Definition try_except {A} (c : M A) (handles : exn_class -> bool) (h : exn -> M A) : M A :=
  fun st =>
    match c st with
    | (Ok a, st') => (Ok a, st')
    | (Raise e, st') => if handles (exn_class_of e) then h e st' else (Raise e, st')
    end.

Definition emit (ev : event) : M unit :=
  fun st => (Ok tt, mk_state (upload_read st) (log st ++ [ev])).

Declare Scope py_scope.
Delimit Scope py_scope with py.
Notation "x <- c ;; k" := (bind c (fun x => k))
  (at level 61, c at next level, right associativity) : py_scope.
Notation "c ;;; k" := (bind c (fun _ => k))
  (at level 61, right associativity) : py_scope.
Local Open Scope py_scope.

(** [print(line)] of a line that the console writes.  This is the print of
    line 66: its text is that of a [RequestException], which [requests]
    makes from the URL, the status line and the messages of the system,
    none of them decoded JSON. *)
Definition print (line : string) : M unit := emit (Print line).
Definition time_sleep (seconds : Z) : M unit := emit (Sleep seconds).

(** [stream.read()]: everything that is left, and the stream is at its end
    afterwards. *)
Definition stream_read (stream : list byte) : M (list byte) :=
  fun st =>
    if upload_read st then (Ok [], st)
    else (Ok stream, mk_state true (log st)).

(** A subscript: [v['key']] or [v[i]]. *)
Inductive subscript : Type :=
| Key (k : string)
| Index (i : Z).

(** [l[i]] on a sequence of [len] items, a negative [i] counting from the
    end; [None] when out of range. *)
Definition seq_position (len : nat) (i : Z) : option nat :=
  let j := if i <? 0 then i + Z.of_nat len else i in
  if (j <? 0) || (Z.of_nat len <=? j) then None else Some (Z.to_nat j).

Definition is_request_exception (c : exn_class) : bool :=
  match c with RequestException => true | _ => false end.

Definition is_decode_or_key_error (c : exn_class) : bool :=
  match c with JSONDecodeError | KeyError => true | _ => false end.

Definition any_exception (c : exn_class) : bool := true.

(** [range(n)] *)
Definition py_range (n : Z) : list Z := map Z.of_nat (seq 0 (Z.to_nat n)).

(** ** The program *)

(** [RESPONSE_SCHEMA['required']] *)
Definition required_keys : list string :=
  ["match_percentage"; "strengths"; "improvement_suggestions";
   "matching_skills"; "missing_skills"].

Definition RESPONSE_SCHEMA : value :=
  VDict [
    ("type", VStr "OBJECT");
    ("properties", VDict [
      ("match_percentage", VDict [
         ("type", VStr "STRING");
         ("description", VStr "The overall match score as a percentage string, e.g., '75%'.")]);
      ("strengths", VDict [
         ("type", VStr "STRING");
         ("description", VStr "A detailed, short paragraph summarizing the key strengths of the resume relative to the JD.")]);
      ("improvement_suggestions", VDict [
         ("type", VStr "STRING");
         ("description", VStr "A detailed, short paragraph providing specific suggestions for improving the resume's match.")]);
      ("matching_skills", VDict [
         ("type", VStr "ARRAY");
         ("items", VDict [("type", VStr "STRING")]);
         ("description", VStr "A list of relevant technical and soft skills found in the resume that match the JD.")]);
      ("missing_skills", VDict [
         ("type", VStr "ARRAY");
         ("items", VDict [("type", VStr "STRING")]);
         ("description", VStr "A list of critical skills mentioned in the JD that are missing or weakly represented in the resume.")])
    ]);
    ("required", VList (map VStr required_keys))
  ].

Definition system_instruction : string :=
  "You are an expert ATS (Applicant Tracking System) and Career Coach. "
  ++ "Analyze the provided resume (PDF) against the job description (text). "
  ++ "Provide an extremely accurate and strict assessment. "
  ++ "Return the feedback strictly in the requested JSON format.".

Definition user_prompt (jd : string) : string :=
  "Analyze the resume against the following Job Description (JD) and provide a structured ATS report. "
  ++ "JD: " ++ jd.

(** The dict literal of lines 113 to 130. *)
Definition payload_of (prompt : string) (resume_part : value) : value :=
  VDict [
    ("contents", VList [
       VDict [
         ("role", VStr "user");
         ("parts", VList [VDict [("text", VStr prompt)]; resume_part])
       ]
     ]);
    ("generationConfig", VDict [
       ("responseMimeType", VStr "application/json");
       ("responseSchema", RESPONSE_SCHEMA)
     ]);
    ("systemInstruction", VDict [
       ("parts", VList [VDict [("text", VStr system_instruction)]])
     ])
  ].

(** [jsonify({"error": message})] *)
Definition error_body (message : string) : value := VDict [("error", VStr message)].

(** An uploaded file ([werkzeug.FileStorage]): its file name, the media
    type of its part, and the bytes of its stream. *)
Record FileStorage : Type := mk_file {
  filename : string;
  mimetype : string;
  stream : list byte
}.

(** The multipart form of a request: [request.form] and [request.files]. *)
Record request : Type := mk_request {
  form : list (string * string);
  files : list (string * FileStorage)
}.

(** [d.get(key)] on a [MultiDict]: the first value under the key. *)
Fixpoint multidict_get {A} (key : string) (d : list (string * A)) : option A :=
  match d with
  | [] => None
  | (k, v) :: rest => if String.eqb k key then Some v else multidict_get key rest
  end.

(** Truth value of a string: [not s] holds of the empty string. *)
Definition str_truthy (s : string) : bool :=
  match s with EmptyString => false | String _ _ => true end.

(** Truth value of an upload: [FileStorage.__bool__] is [bool(self.filename)]. *)
Definition file_truthy (f : FileStorage) : bool := str_truthy (filename f).

(** A response: the JSON body and the HTTP status. *)
Definition response : Type := value * Z.

(** Whether every character of a text is an ASCII character. *)
Definition is_ascii_text (s : string) : bool :=
  forallb (fun c => (N_of_ascii c <? 128)%N) (list_ascii_of_string s).

Section Program.

Context {rt : Runtime}.

(** [str(v)]: a string is itself, anything else is its [repr]. *)
Definition py_str (v : value) : string :=
  match v with
  | VStr s => s
  | _ => py_repr v
  end.

(** [key in container] for a string [key]. *)
Definition py_in (key : string) (container : value) : result bool :=
  match container with
  | VDict entries => Ok (dict_has key entries)
  | VList items => Ok (existsb (is_str key) items)
  | VStr s => Ok (contains key s)
  | other =>
      Raise (mk_exn TypeError
               ("argument of type '" ++ type_name other ++ "' is not iterable"))
  end.

(** [all(key in container for key in keys)]: stops at the first key that
    is not in the container. *)
Fixpoint all_in (keys : list string) (container : value) : result bool :=
  match keys with
  | [] => Ok true
  | key :: rest =>
      match py_in key container with
      | Ok true => all_in rest container
      | Ok false => Ok false
      | Raise e => Raise e
      end
  end.

(** [v[sub]] *)
Definition py_getitem (v : value) (sub : subscript) : result value :=
  match v, sub with
  | VDict entries, Key k =>
      match dict_lookup k entries with
      | Some x => Ok x
      | None => Raise (mk_exn KeyError (py_repr (VStr k)))
      end
  | VDict _, Index i => Raise (mk_exn KeyError (py_repr (VInt i)))
  | VList items, Index i =>
      match seq_position (List.length items) i with
      | Some n =>
          match nth_error items n with
          | Some x => Ok x
          | None => Raise (mk_exn IndexError "list index out of range")
          end
      | None => Raise (mk_exn IndexError "list index out of range")
      end
  | VList _, Key _ =>
      Raise (mk_exn TypeError "list indices must be integers or slices, not str")
  | VStr s, Index i =>
      match seq_position (String.length s) i with
      | Some n =>
          match String.get n s with
          | Some c => Ok (VStr (String c EmptyString))
          | None => Raise (mk_exn IndexError "string index out of range")
          end
      | None => Raise (mk_exn IndexError "string index out of range")
      end
  | VStr _, Key _ =>
      Raise (mk_exn TypeError "string indices must be integers, not 'str'")
  | other, _ =>
      Raise (mk_exn TypeError ("'" ++ type_name other ++ "' object is not subscriptable"))
  end.

(** [v.get(key, default)]: only a dict has the method. *)
Definition py_get (v : value) (key : string) (default : value) : result value :=
  match v with
  | VDict entries =>
      match dict_lookup key entries with
      | Some x => Ok x
      | None => Ok default
      end
  | other =>
      Raise (mk_exn AttributeError
               ("'" ++ type_name other ++ "' object has no attribute 'get'"))
  end.

(** [json.loads(v)]: on a string, what the decoder returns or raises. *)
Definition py_json_loads (v : value) : result value :=
  match v with
  | VStr s => json_loads s
  | other =>
      Raise (mk_exn TypeError
               ("the JSON object must be str, bytes or bytearray, not " ++ type_name other))
  end.

(** Lines 53 to 56: one POST, recorded in the log; its outcome is the
    runtime's. *)
Definition requests_post_json (payload : value) : M value :=
  fun st =>
    (http_exchange (attempts_made (log st)) payload,
     mk_state (upload_read st) (log st ++ [Post payload])).

(** [file_to_base64_part] *)
Definition file_to_base64_part (file_stream : list byte) (mime_type : string) : M value :=
  file_bytes <- stream_read file_stream ;;
  let encoded_string := b64encode file_bytes in
  ret (VDict [("inlineData",
               VDict [("mimeType", VStr mime_type); ("data", VStr encoded_string)])]).

(** The body of the [try] of [call_gemini_api_with_backoff], lines 52 to 61. *)
Definition attempt_once (payload : value) : M value :=
  result <- requests_post_json payload ;;
  has_error <- lift (py_in "error" result) ;;
  if has_error : bool then
    error <- lift (py_get result "error" (VDict [])) ;;
    error_message <- lift (py_get error "message" (VStr "Unknown API Error")) ;;
    raise (mk_exn PlainException ("Gemini API error: " ++ py_str error_message))
  else
    ret result.

(** The [for attempt in range(max_retries)] loop over the attempts that
    are left.  A loop that runs out returns [None]. *)
Fixpoint for_attempt_in (payload : value) (max_retries : Z) (attempts : list Z) : M value :=
  match attempts with
  | [] => ret VNone
  | attempt :: later =>
      try_except (attempt_once payload) is_request_exception
        (fun e =>
           if attempt <? max_retries - 1 then
             let wait_time := 2 ^ attempt in
             print ("API call failed: " ++ exn_str e ++ ". Retrying in "
                    ++ str_of_Z wait_time ++ "s...") ;;;
             time_sleep wait_time ;;;
             for_attempt_in payload max_retries later
           else
             raise (mk_exn PlainException
                      ("Gemini API call failed after " ++ str_of_Z max_retries
                       ++ " attempts: " ++ exn_str e)))
  end.

Definition call_gemini_api_with_backoff (payload : value) (max_retries : Z) : M value :=
  for_attempt_in payload max_retries (py_range max_retries).

(** Lines 98 to 130 of [analyze_resume]: the inline part, the prompt and
    the payload. *)
Definition build_payload (jd : string) (resume_stream : list byte) : M value :=
  resume_part <- file_to_base64_part resume_stream "application/pdf" ;;
  ret (payload_of (user_prompt jd) resume_part).

(** [v[s1][s2]...] along a path of subscripts, left to right. *)
Fixpoint py_path (v : value) (path : list subscript) : result value :=
  match path with
  | [] => Ok v
  | sub :: rest =>
      match py_getitem v sub with
      | Ok x => py_path x rest
      | Raise e => Raise e
      end
  end.

(** Line 137: [api_result['candidates'][0]['content']['parts'][0]['text']] *)
Definition extract_text (api_result : value) : result value :=
  py_path api_result
    [Key "candidates"; Index 0; Key "content"; Key "parts"; Index 0; Key "text"].

(** Lines 136 to 146: the inner [try] and its [except]. *)
Definition extract_and_validate (api_result : value) : M response :=
  try_except
    (json_text <- lift (extract_text api_result) ;;
     report_data <- lift (py_json_loads json_text) ;;
     complete <- lift (all_in required_keys report_data) ;;
     if complete : bool then
       ret (report_data, 200)
     else
       ret (error_body "AI response was missing required fields.", 500))
    is_decode_or_key_error
    (fun _ => ret (error_body "Failed to parse AI response.", 500)).

(** What [print(line)] raises, if anything: a line of ASCII characters is
    written by every console; any other line is written or refused as the
    console decides. *)
Definition console_error (line : string) : option exn :=
  if is_ascii_text line then None else console_rejects line.

(** [print(line)] of a line whose text may come from decoded JSON. *)
Definition print_checked (line : string) : M unit :=
  match console_error line with
  | None => emit (Print line)
  | Some e => raise e
  end.

(** Lines 148 to 150: the last-resort [except Exception as e].  An
    exception of the [print] of line 149 is raised inside the [except] and
    leaves the handler. *)
Definition unexpected (e : exn) : M response :=
  print_checked ("An unexpected error occurred: " ++ exn_str e) ;;;
  ret (error_body (exn_str e), 500).

(** [analyze_resume], the handler of [POST /analyze]. *)
Definition analyze_resume (req : request) : M response :=
  try_except
    match multidict_get "job_description" (form req),
          multidict_get "resume_pdf" (files req) with
    | Some jd, Some resume_file =>
        if negb (str_truthy jd) || negb (file_truthy resume_file) then
          ret (error_body "Missing job description or resume file.", 400)
        else if negb (String.eqb (mimetype resume_file) "application/pdf") then
          ret (error_body "Only PDF files are supported.", 400)
        else
          payload <- build_payload jd (stream resume_file) ;;
          api_result <- call_gemini_api_with_backoff payload 5 ;;
          extract_and_validate api_result
    | _, _ =>
        ret (error_body "Missing job description or resume file.", 400)
    end
    any_exception
    unexpected.

End Program.

(** ** Derived notions used by the statements *)

(** The inline part that [file_to_base64_part] returns for the bytes of a
    stream. *)
Definition inline_part (file_bytes : list byte) (mime_type : string) : value :=
  VDict [("inlineData",
          VDict [("mimeType", VStr mime_type); ("data", VStr (b64encode file_bytes))])].

(** The payload the handler sends for a job description and the bytes of
    a résumé. *)
Definition resume_payload (jd : string) (resume_bytes : list byte) : value :=
  payload_of (user_prompt jd) (inline_part resume_bytes "application/pdf").

(** The events of one attempt that fails with [message] and is retried. *)
Definition failed_attempt_events (payload : value) (message : string) (attempt : nat)
  : list event :=
  [Post payload;
   Print ("API call failed: " ++ message ++ ". Retrying in "
          ++ str_of_Z (2 ^ Z.of_nat attempt) ++ "s...");
   Sleep (2 ^ Z.of_nat attempt)].

(** The events of the attempts [first], ..., [first + count - 1], each
    failing with its message and retried. *)
Definition retry_events (payload : value) (messages : nat -> string) (first count : nat)
  : list event :=
  flat_map (fun i => failed_attempt_events payload (messages i) i) (seq first count).

(** The durations 2^0, ..., 2^(n-1). *)
Definition backoff_delays (n : nat) : list Z := map (fun i => 2 ^ Z.of_nat i) (seq 0 n).

(** A state with more events at the end of its log. *)
Definition after (st : state) (events : list event) : state :=
  mk_state (upload_read st) (log st ++ events).

(** An AnalysisReport: a JSON object that holds the five required keys. *)
Definition is_analysis_report (body : value) : Prop :=
  exists entries,
    body = VDict entries /\ forall key, In key required_keys -> dict_has key entries = true.

(** An error body: a JSON object with the single key [error]. *)
Definition is_error_body (body : value) : Prop :=
  exists message, body = error_body message.


(** The posted payloads of a log, oldest first. *)
Fixpoint posted (l : list event) : list value :=
  match l with
  | [] => []
  | Post p :: rest => p :: posted rest
  | _ :: rest => posted rest
  end.

(** A request that passes the checks of lines 91 and 94: both fields are
    there, neither is falsy ([jd] is not the empty string, the upload has a
    file name), and the upload declares the PDF media type. *)
Definition valid_request (req : request) (jd : string) (resume_file : FileStorage) : Prop :=
  multidict_get "job_description" (form req) = Some jd
  /\ jd <> EmptyString
  /\ multidict_get "resume_pdf" (files req) = Some resume_file
  /\ filename resume_file <> EmptyString
  /\ mimetype resume_file = "application/pdf".

(** The state of a request once its payload is built: the upload has been
    read, nothing has been sent. *)
Definition built_state : state := mk_state true [].


(** The numbers below [n], for exhaustive checks. *)
Definition below (n : nat) : list N := map N.of_nat (seq 0 n).

(** [c] is the character of the six-bit group [n]. *)
Definition index_is (c : ascii) (n : N) : bool :=
  match b64_index c with Some m => N.eqb m n | None => false end.

(** The six-bit groups of three bytes. *)
Definition sextet1 (x : N) : N := N.shiftr x 2.
Definition sextet2 (x y : N) : N := N.lor (N.shiftl (N.land x 3) 4) (N.shiftr y 4).
Definition sextet3 (y z : N) : N := N.lor (N.shiftl (N.land y 15) 2) (N.shiftr z 6).
Definition sextet4 (z : N) : N := N.land z 63.

(** What the decoder needs of two neighbouring bytes, as a test. *)
Definition pair_test (x y : N) : bool :=
  (sextet1 x <? 64)%N && (sextet2 x y <? 64)%N && (sextet3 x y <? 64)%N
  && (sextet4 x <? 64)%N
  && N.eqb (N.lor (N.shiftl (sextet1 x) 2) (N.shiftr (sextet2 x y) 4)) x
  && N.eqb (N.land (sextet2 x y) 15) (N.shiftr y 4)
  && N.eqb (N.shiftr (sextet3 x y) 2) (N.land x 15)
  && N.eqb (N.land (sextet3 x y) 3) (N.shiftr y 6)
  && N.eqb (N.lor (N.shiftl (N.shiftr x 4) 4) (N.land x 15)) x
  && N.eqb (N.lor (N.shiftl (N.shiftr x 6) 6) (sextet4 x)) x.

(** ** Runtimes and inputs for the worked examples *)

(** A decoder that knows the documents of a table and rejects every other
    text as not being JSON. *)
Definition loads_from (documents : list (string * value)) (s : string) : result value :=
  match multidict_get s documents with
  | Some decoded => Ok decoded
  | None => Raise (mk_exn JSONDecodeError "Expecting value: line 1 column 1 (char 0)")
  end.

(** The same decoder, raising the exception of a second table on its
    texts. *)
Definition loads_raising (failures : list (string * exn))
    (documents : list (string * value)) (s : string) : result value :=
  match multidict_get s failures with
  | Some e => Raise e
  | None => loads_from documents s
  end.

(** The lone surrogate U+DC80, as the three bytes that stand for it in a
    string of the model. *)
Definition lone_surrogate : string :=
  String "237"%char (String "178"%char (String "128"%char EmptyString)).

(** A UTF-8 console: it refuses a line that holds the lone surrogate. *)
Definition utf8_console (line : string) : option exn :=
  match index 0 lone_surrogate line with
  | Some position =>
      Some (mk_exn UnicodeEncodeError
              ("'utf-8' codec can't encode character '\udc80' in position "
               ++ str_of_Z (Z.of_nat position) ++ ": surrogates not allowed"))
  | None => None
  end.

(** [repr] of [None], the booleans, the integers and strings of plain
    characters; the examples render nothing else. *)
Definition repr_scalar (v : value) : string :=
  match v with
  | VNone => "None"
  | VBool true => "True"
  | VBool false => "False"
  | VInt n => str_of_Z n
  | VStr s => "'" ++ s ++ "'"
  | _ => "..."
  end.

(** A service that answers the attempts in turn from a script, and with
    [last] once the script is over. *)
Definition scripted (script : list (result value)) (last : result value)
  : nat -> value -> result value :=
  fun n _ => nth n script last.

Definition example_runtime (documents : list (string * value))
    (service : nat -> value -> result value) : Runtime :=
  {| py_repr := repr_scalar;
     json_loads := loads_from documents;
     console_rejects := utf8_console;
     http_exchange := service |}.

(** The double quote, and a quoted JSON string of plain characters. *)
Definition dquote : string := String "034"%char EmptyString.
Definition quoted (s : string) : string := dquote ++ s ++ dquote.

(** The reply of the service that carries [text]. *)
Definition reply_with_text (text : string) : value :=
  VDict [("candidates",
          VList [VDict [("content",
                         VDict [("parts", VList [VDict [("text", VStr text)]])])]])].


Definition example_jd : string := "Looking for a Python backend engineer".

Definition example_pdf : list byte := bytes_of_string "%PDF-1.4 resume".

Definition example_request : request :=
  mk_request [("job_description", example_jd)]
             [("resume_pdf", mk_file "resume.pdf" "application/pdf" example_pdf)].

Definition example_empty_jd_request : request :=
  mk_request [("job_description", EmptyString)]
             [("resume_pdf", mk_file "resume.pdf" "application/pdf" example_pdf)].

Definition example_png_request : request :=
  mk_request [("job_description", example_jd)]
             [("resume_pdf", mk_file "photo.png" "image/png" example_pdf)].

Definition example_no_jd_request : request :=
  mk_request []
             [("resume_pdf", mk_file "resume.pdf" "application/pdf" example_pdf)].

Definition example_report : list (string * value) :=
  [("match_percentage", VStr "75%");
   ("strengths", VStr "Strong Python background.");
   ("improvement_suggestions", VStr "Mention cloud deployments.");
   ("matching_skills", VList [VStr "Python"; VStr "Flask"]);
   ("missing_skills", VList [VStr "Kubernetes"])].

Definition example_report_text : string :=
  "{" ++ quoted "match_percentage" ++ ": " ++ quoted "75%" ++ ", "
  ++ quoted "strengths" ++ ": " ++ quoted "Strong Python background." ++ ", "
  ++ quoted "improvement_suggestions" ++ ": " ++ quoted "Mention cloud deployments." ++ ", "
  ++ quoted "matching_skills" ++ ": [" ++ quoted "Python" ++ ", " ++ quoted "Flask" ++ "], "
  ++ quoted "missing_skills" ++ ": [" ++ quoted "Kubernetes" ++ "]}".

(** The report of the example without its last key. *)
Definition example_short_report : list (string * value) :=
  [("match_percentage", VStr "75%");
   ("strengths", VStr "Strong Python background.");
   ("improvement_suggestions", VStr "Mention cloud deployments.");
   ("matching_skills", VList [VStr "Python"; VStr "Flask"])].

Definition example_short_report_text : string :=
  "{" ++ quoted "match_percentage" ++ ": " ++ quoted "75%" ++ ", "
  ++ quoted "strengths" ++ ": " ++ quoted "Strong Python background." ++ ", "
  ++ quoted "improvement_suggestions" ++ ": " ++ quoted "Mention cloud deployments." ++ ", "
  ++ quoted "matching_skills" ++ ": [" ++ quoted "Python" ++ ", " ++ quoted "Flask" ++ "]}".

(** A JSON array of the five key names: [all(key in ...)] holds of it. *)
Definition example_key_list : list value := map VStr required_keys.

Definition example_key_list_text : string :=
  "[" ++ quoted "match_percentage" ++ ", " ++ quoted "strengths" ++ ", "
  ++ quoted "improvement_suggestions" ++ ", " ++ quoted "matching_skills" ++ ", "
  ++ quoted "missing_skills" ++ "]".

Definition example_documents : list (string * value) :=
  [(example_report_text, VDict example_report);
   (example_short_report_text, VDict example_short_report);
   (example_key_list_text, VList example_key_list)].

Definition timeout_error : exn := mk_exn RequestException "Read timed out.".


(** The service answers every attempt with the report of the example. *)
Definition rt_report : Runtime :=
  example_runtime example_documents
    (scripted [] (Ok (reply_with_text example_report_text))).


(** Every attempt times out. *)
Definition rt_timeouts : Runtime :=
  example_runtime example_documents (scripted [] (Raise timeout_error)).


(** The text of the reply is not JSON. *)
Definition rt_bad_json : Runtime :=
  example_runtime example_documents
    (scripted [] (Ok (reply_with_text "Sorry, I cannot help with that."))).

(** The text of the reply is a report without [missing_skills]. *)
Definition rt_short_report : Runtime :=
  example_runtime example_documents
    (scripted [] (Ok (reply_with_text example_short_report_text))).

(** The text of the reply is the JSON array of the five key names. *)
Definition rt_key_list : Runtime :=
  example_runtime example_documents
    (scripted [] (Ok (reply_with_text example_key_list_text))).

(** The reply has no candidate. *)
Definition rt_no_candidates : Runtime :=
  example_runtime example_documents
    (scripted [] (Ok (VDict [("candidates", VList [])]))).

Definition example_file : FileStorage :=
  mk_file "resume.pdf" "application/pdf" example_pdf.

Definition example_payload : value := resume_payload example_jd example_pdf.

(** ** The health check and further notions *)

(** [home], the handler of [GET /]: a fixed body and status 200. *)
Definition home : M response :=
  ret (VDict [("status", VStr "online");
              ("message", VStr "ATS Analysis Backend is running successfully.");
              ("endpoints", VDict [("analyze", VStr "/analyze [POST]")])],
       200).

(** Seconds slept in all. *)
Definition total_seconds (delays : list Z) : Z := fold_right Z.add 0 delays.

(** A value that has neither [in] nor subscripts: [None], a boolean, a
    number. *)
Definition is_scalar (v : value) : bool :=
  match v with
  | VNone | VBool _ | VInt _ | VFloat _ => true
  | VStr _ | VList _ | VDict _ => false
  end.

Definition is_dict (v : value) : bool :=
  match v with VDict _ => true | _ => false end.

Definition is_text (v : value) : bool :=
  match v with VStr _ => true | _ => false end.

(** The keys that line 137 looks up, each with the subscripts before it. *)
Definition text_path_keys : list (list subscript * string) :=
  [([], "candidates");
   ([Key "candidates"; Index 0], "content");
   ([Key "candidates"; Index 0; Key "content"], "parts");
   ([Key "candidates"; Index 0; Key "content"; Key "parts"; Index 0], "text")].


(** The first attempt fails outside [requests]: an exception of another
    class. *)
Definition rt_unexpected : Runtime :=
  example_runtime example_documents
    (scripted [Raise (mk_exn OtherException "boom")]
              (Ok (reply_with_text example_report_text))).


(** The body of the reply is the JSON value [null]. *)
Definition rt_null_reply : Runtime :=
  example_runtime example_documents (scripted [] (Ok VNone)).

(** The [error] field of the reply is a string, not an object. *)
Definition rt_error_string : Runtime :=
  example_runtime example_documents
    (scripted [] (Ok (VDict [("error", VStr "quota exceeded")]))).

(** The first part of the reply has no [text]. *)
Definition rt_no_text : Runtime :=
  example_runtime example_documents
    (scripted []
       (Ok (VDict [("candidates",
                    VList [VDict [("content",
                                   VDict [("parts", VList [VDict []])])]])]))).

(** The [text] of the reply is a number. *)
Definition rt_numeric_text : Runtime :=
  example_runtime example_documents
    (scripted []
       (Ok (VDict [("candidates",
                    VList [VDict [("content",
                                   VDict [("parts",
                                           VList [VDict [("text", VInt 7)]])])]])]))).

(** The text of the reply decodes to a number. *)
Definition rt_number_report : Runtime :=
  example_runtime [("42", VInt 42)] (scripted [] (Ok (reply_with_text "42"))).

(** A PDF upload whose part has an empty file name. *)
Definition example_unnamed_file : FileStorage :=
  mk_file EmptyString "application/pdf" example_pdf.

Definition example_unnamed_request : request :=
  mk_request [("job_description", example_jd)] [("resume_pdf", example_unnamed_file)].

(** 1001 opening brackets: not a JSON text, and nested too deep for the
    decoder, which gives up with a [RecursionError]. *)
Definition deep_text : string := string_of_list_ascii (repeat "["%char 1001).

Definition recursion_error : exn :=
  mk_exn RecursionError
    "maximum recursion depth exceeded while decoding a JSON array from a unicode string".

(** The text of the reply is [deep_text]. *)
Definition rt_deep_nesting : Runtime :=
  {| py_repr := repr_scalar;
     json_loads := loads_raising [(deep_text, recursion_error)] example_documents;
     console_rejects := utf8_console;
     http_exchange := scripted [] (Ok (reply_with_text deep_text)) |}.




(** * Properties *)

(** ** Strings *)

Lemma prefix_app (needle rest : string) : prefix needle (needle ++ rest) = true.
Proof.
  induction needle as [|c needle IH]; simpl.
  - now destruct rest.
  - destruct (ascii_dec c c) as [_|ne]; [exact IH | now destruct ne].
Qed.

Lemma prefix_split (needle hay : string) :
  prefix needle hay = true -> exists rest, hay = needle ++ rest.
Proof.
  revert hay; induction needle as [|c needle IH]; intros hay H.
  - now exists hay.
  - destruct hay as [|d hay]; simpl in H; [discriminate|].
    destruct (ascii_dec c d) as [->|]; [|discriminate].
    destruct (IH _ H) as [rest ->]. now exists rest.
Qed.

Lemma contains_prefix (needle hay : string) :
  prefix needle hay = true -> contains needle hay = true.
Proof.
  intros H. destruct hay; cbn [contains]; rewrite H; reflexivity.
Qed.

Lemma contains_app (before needle rest : string) :
  contains needle (before ++ needle ++ rest) = true.
Proof.
  induction before as [|c before IH].
  - change (EmptyString ++ needle ++ rest) with (needle ++ rest).
    apply contains_prefix, prefix_app.
  - change (String c before ++ needle ++ rest) with (String c (before ++ needle ++ rest)).
    cbn [contains]. rewrite IH. apply orb_true_r.
Qed.

Lemma append_empty_r (s : string) : s ++ EmptyString = s.
Proof. induction s as [|c s IH]; [reflexivity|]. cbn [append]. now rewrite IH. Qed.


Lemma contains_split (needle hay : string) :
  contains needle hay = true -> exists before rest, hay = before ++ needle ++ rest.
Proof.
  induction hay as [|c hay IH]; intros H.
  - cbn [contains] in H. rewrite orb_false_r in H.
    destruct (prefix_split _ _ H) as [rest ->]. now exists EmptyString, rest.
  - cbn [contains] in H. apply orb_true_iff in H. destruct H as [H|H].
    + destruct (prefix_split _ _ H) as [rest ->]. now exists EmptyString, rest.
    + destruct (IH H) as (before & rest & ->). now exists (String c before), rest.
Qed.

(** [contains] decides "occurs as a contiguous substring". *)
Lemma contains_spec (needle hay : string) :
  contains needle hay = true <-> exists before rest, hay = before ++ needle ++ rest.
Proof.
  split; [apply contains_split|].
  intros (before & rest & ->). apply contains_app.
Qed.

(** ** Base64 *)

Lemma below_complete (n : nat) (x : N) : (x < N.of_nat n)%N -> In x (below n).
Proof.
  intros H. unfold below. apply in_map_iff. exists (N.to_nat x). split; [lia|].
  apply in_seq. lia.
Qed.

Lemma forall_below (n : nat) (p : N -> bool) :
  forallb p (below n) = true -> forall x, (x < N.of_nat n)%N -> p x = true.
Proof.
  intros H x Hx. rewrite forallb_forall in H. apply H, below_complete, Hx.
Qed.

Lemma forall2_below (n m : nat) (p : N -> N -> bool) :
  forallb (fun x => forallb (p x) (below m)) (below n) = true ->
  forall x y, (x < N.of_nat n)%N -> (y < N.of_nat m)%N -> p x y = true.
Proof.
  intros H x y Hx Hy.
  apply (forall_below m (p x)); [|exact Hy].
  apply (forall_below n (fun x => forallb (p x) (below m))); assumption.
Qed.

Lemma byte_bound (a : byte) : (Byte.to_N a < N.of_nat 256)%N.
Proof. pose proof (Byte.to_N_bounded a). lia. Qed.

Lemma byte_of_to_N (a : byte) : byte_of_N (Byte.to_N a) = a.
Proof. unfold byte_of_N. now rewrite Byte.of_to_N. Qed.

Lemma index_is_true c n : index_is c n = true -> b64_index c = Some n.
Proof.
  unfold index_is. destruct (b64_index c); [|discriminate].
  intros H. apply N.eqb_eq in H. now subst.
Qed.

Lemma b64_index_char (n : N) : (n < 64)%N -> b64_index (b64_char n) = Some n.
Proof.
  intros H. apply index_is_true.
  apply (forall_below 64 (fun n => index_is (b64_char n) n)); [vm_compute; reflexivity | exact H].
Qed.

Lemma b64_index_pad : b64_index b64_pad = None.
Proof. reflexivity. Qed.


Lemma pair_test_all :
  forallb (fun x => forallb (pair_test x) (below 256)) (below 256) = true.
Proof. vm_compute. reflexivity. Qed.

Lemma pair_facts (a b : byte) :
  let x := Byte.to_N a in
  let y := Byte.to_N b in
  (sextet1 x < 64)%N /\ (sextet2 x y < 64)%N /\ (sextet3 x y < 64)%N
  /\ (sextet4 x < 64)%N
  /\ N.lor (N.shiftl (sextet1 x) 2) (N.shiftr (sextet2 x y) 4) = x
  /\ N.land (sextet2 x y) 15 = N.shiftr y 4
  /\ N.shiftr (sextet3 x y) 2 = N.land x 15
  /\ N.land (sextet3 x y) 3 = N.shiftr y 6
  /\ N.lor (N.shiftl (N.shiftr x 4) 4) (N.land x 15) = x
  /\ N.lor (N.shiftl (N.shiftr x 6) 6) (sextet4 x) = x.
Proof.
  intros x y.
  pose proof (forall2_below 256 256 pair_test pair_test_all x y
                (byte_bound a) (byte_bound b)) as H.
  unfold pair_test in H.
  repeat (apply andb_true_iff in H; destruct H as [H ?]).
  repeat match goal with
         | E : (_ <? _)%N = true |- _ => apply N.ltb_lt in E
         | E : N.eqb _ _ = true |- _ => apply N.eqb_eq in E
         end.
  repeat split; assumption.
Qed.

(** A last group of one byte is a pair whose second byte is zero. *)
Lemma sextet2_zero (x : N) : N.shiftl (N.land x 3) 4 = sextet2 x 0.
Proof. unfold sextet2. now rewrite N.shiftr_0_l, N.lor_0_r. Qed.

Lemma sextet3_zero (y : N) : N.shiftl (N.land y 15) 2 = sextet3 y 0.
Proof. unfold sextet3. now rewrite N.shiftr_0_l, N.lor_0_r. Qed.

Lemma b64encode_three (a b c : byte) (rest : list byte) :
  b64encode (a :: b :: c :: rest) =
  String (b64_char (sextet1 (Byte.to_N a)))
 (String (b64_char (sextet2 (Byte.to_N a) (Byte.to_N b)))
 (String (b64_char (sextet3 (Byte.to_N b) (Byte.to_N c)))
 (String (b64_char (sextet4 (Byte.to_N c))) (b64encode rest)))).
Proof. reflexivity. Qed.

Lemma b64encode_nonempty (r : byte) (rest : list byte) :
  exists c1 c2 c3 c4 tail,
    b64encode (r :: rest) = String c1 (String c2 (String c3 (String c4 tail))).
Proof.
  destruct rest as [|r2 [|r3 rest]]; cbn [b64encode]; repeat eexists.
Qed.

Lemma three_step_induction (P : list byte -> Prop) :
  P [] -> (forall a, P [a]) -> (forall a b, P [a; b]) ->
  (forall a b c rest, P rest -> P (a :: b :: c :: rest)) ->
  forall bs, P bs.
Proof.
  intros H0 H1 H2 H3.
  fix IH 1. intros [|a [|b [|c rest]]];
    [apply H0 | apply H1 | apply H2 | apply H3, IH].
Qed.

(** Decoding, with enough fuel, undoes encoding. *)
Lemma b64decode_chars_encode (bs : list byte) :
  forall fuel, (List.length bs < 3 * fuel)%nat ->
  b64decode_chars fuel (list_ascii_of_string (b64encode bs)) = Some bs.
Proof.
  induction bs as [ | a | a b | a b c rest IH] using three_step_induction;
    intros [|fuel] Hfuel; try (cbn [List.length] in Hfuel; lia).
  - reflexivity.
  - destruct (pair_facts a x00) as (B1 & B2 & _ & _ & E1 & _).
    cbn [b64encode list_ascii_of_string b64decode_chars].
    rewrite sextet2_zero.
    fold (sextet1 (Byte.to_N a)). change (Byte.to_N x00) with 0%N in *.
    rewrite !b64_index_char, b64_index_pad by assumption.
    rewrite E1, byte_of_to_N. reflexivity.
  - destruct (pair_facts a b) as (B1 & B2 & _ & _ & E1 & E2 & _).
    destruct (pair_facts b x00) as (_ & _ & B3 & _ & _ & _ & E3 & _ & E4 & _).
    change (Byte.to_N x00) with 0%N in *.
    cbn [b64encode list_ascii_of_string b64decode_chars].
    rewrite sextet3_zero.
    fold (sextet1 (Byte.to_N a)). fold (sextet2 (Byte.to_N a) (Byte.to_N b)).
    rewrite !b64_index_char, b64_index_pad by assumption.
    rewrite E1, E2, E3, E4, !byte_of_to_N. reflexivity.
  - destruct (pair_facts a b) as (B1 & B2 & _ & _ & E1 & E2 & _).
    destruct (pair_facts b c) as (_ & _ & B3 & _ & _ & _ & E3 & E5 & E4 & _).
    destruct (pair_facts c c) as (_ & _ & _ & B4 & _ & _ & _ & _ & _ & E6).
    rewrite b64encode_three.
    assert (Hrest : b64decode_chars fuel (list_ascii_of_string (b64encode rest)) = Some rest).
    { apply IH. cbn [List.length] in Hfuel. lia. }
    destruct rest as [|r rest].
    + cbn [b64encode list_ascii_of_string b64decode_chars].
      rewrite !b64_index_char by assumption.
      rewrite E1, E2, E3, E5, E4, E6, !byte_of_to_N. reflexivity.
    + destruct (b64encode_nonempty r rest) as (c1 & c2 & c3 & c4 & tail & Henc).
      rewrite Henc in *.
      cbn [list_ascii_of_string]. cbn [list_ascii_of_string] in Hrest.
      cbn [b64decode_chars].
      rewrite !b64_index_char by assumption.
      rewrite Hrest, E1, E2, E3, E5, E4, E6, !byte_of_to_N. reflexivity.
Qed.

Lemma b64encode_length (bs : list byte) :
  (List.length bs <= String.length (b64encode bs))%nat.
Proof.
  induction bs as [ | a | a b | a b c rest IH] using three_step_induction;
    cbn [b64encode String.length List.length] in *; lia.
Qed.

Lemma length_list_ascii (s : string) :
  List.length (list_ascii_of_string s) = String.length s.
Proof. induction s; cbn [list_ascii_of_string List.length String.length]; congruence. Qed.

(** [b64encode] loses nothing: the bytes are recovered from the text. *)
Lemma b64decode_encode (bs : list byte) : b64decode (b64encode bs) = Some bs.
Proof.
  unfold b64decode. apply b64decode_chars_encode.
  rewrite length_list_ascii. pose proof (b64encode_length bs). lia.
Qed.


Example b64_rfc4648_1 : b64encode (bytes_of_string "f") = "Zg==".
Proof. reflexivity. Qed.
Example b64_rfc4648_2 : b64encode (bytes_of_string "fo") = "Zm8=".
Proof. reflexivity. Qed.
Example b64_rfc4648_3 : b64encode (bytes_of_string "foo") = "Zm9v".
Proof. reflexivity. Qed.
Example b64_rfc4648_5 : b64encode (bytes_of_string "fooba") = "Zm9vYmE=".
Proof. reflexivity. Qed.
Example b64_rfc4648_6 : b64encode (bytes_of_string "foobar") = "Zm9vYmFy".
Proof. reflexivity. Qed.
Example b64_decode_foobar : b64decode "Zm9vYmE=" = Some (bytes_of_string "fooba").
Proof. reflexivity. Qed.
(** ** The log *)

Lemma attempts_made_app (l1 l2 : list event) :
  attempts_made (l1 ++ l2) = (attempts_made l1 + attempts_made l2)%nat.
Proof. unfold attempts_made. now rewrite filter_app, length_app. Qed.

Lemma sleeps_app (l1 l2 : list event) : sleeps (l1 ++ l2) = (sleeps l1 ++ sleeps l2)%list.
Proof.
  induction l1 as [|[p|s|line] l1 IH]; cbn [sleeps app]; rewrite ?IH; reflexivity.
Qed.

Lemma posted_app (l1 l2 : list event) : posted (l1 ++ l2) = (posted l1 ++ posted l2)%list.
Proof.
  induction l1 as [|[p|s|line] l1 IH]; cbn [posted app]; rewrite ?IH; reflexivity.
Qed.

Lemma after_after (st : state) (e1 e2 : list event) :
  after (after st e1) e2 = after st (e1 ++ e2).
Proof. unfold after. simpl. now rewrite app_assoc. Qed.

Lemma attempts_made_after (st : state) (events : list event) :
  attempts_made (log (after st events))
  = (attempts_made (log st) + attempts_made events)%nat.
Proof. unfold after. simpl. apply attempts_made_app. Qed.

Lemma after_nil (st : state) : after st [] = st.
Proof. destruct st. unfold after. simpl. now rewrite app_nil_r. Qed.

Lemma retry_events_succ (payload : value) (messages : nat -> string) (first count : nat) :
  retry_events payload messages first (S count) =
  (failed_attempt_events payload (messages first) first
   ++ retry_events payload messages (S first) count)%list.
Proof. reflexivity. Qed.

Lemma attempts_made_retry_events payload messages first count :
  attempts_made (retry_events payload messages first count) = count.
Proof.
  revert first; induction count as [|count IH]; intros first; [reflexivity|].
  rewrite retry_events_succ, attempts_made_app, IH. reflexivity.
Qed.

Lemma sleeps_retry_events payload messages first count :
  sleeps (retry_events payload messages first count) =
  map (fun i => 2 ^ Z.of_nat i) (seq first count).
Proof.
  revert first; induction count as [|count IH]; intros first; [reflexivity|].
  rewrite retry_events_succ, sleeps_app, IH. reflexivity.
Qed.

Lemma posted_retry_events payload messages first count :
  posted (retry_events payload messages first count) = repeat payload count.
Proof.
  revert first; induction count as [|count IH]; intros first; [reflexivity|].
  rewrite retry_events_succ, posted_app, IH. reflexivity.
Qed.

Section Backoff.

Context {rt : Runtime}.

(** ** One attempt *)

Lemma attempt_once_raises (payload : value) (st : state) (e : exn) :
  http_exchange (attempts_made (log st)) payload = Raise e ->
  attempt_once payload st = (Raise e, after st [Post payload]).
Proof.
  intros H. unfold attempt_once, bind, requests_post_json. now rewrite H.
Qed.



(** ** The retry loop *)

(** While the attempts fail with a [RequestException] and are not the
    last, the loop logs each one, sleeps and goes on with the next. *)
Lemma for_attempt_in_retries (payload : value) (max_retries : Z) (messages : nat -> string) :
  forall (count first more : nat) (st : state),
    (Z.of_nat (first + count) <= max_retries - 1) ->
    (forall i, (i < count)%nat ->
       http_exchange (attempts_made (log st) + i) payload
       = Raise (mk_exn RequestException (messages (first + i)%nat))) ->
    for_attempt_in payload max_retries (map Z.of_nat (seq first (count + more))) st
    = for_attempt_in payload max_retries (map Z.of_nat (seq (first + count) more))
        (after st (retry_events payload messages first count)).
Proof.
  induction count as [|count IH]; intros first more st Hmax Hfail.
  - rewrite Nat.add_0_r. cbn [retry_events seq flat_map Nat.add]. now rewrite after_nil.
  - cbn [Nat.add seq map for_attempt_in].
    unfold try_except at 1.
    rewrite (attempt_once_raises payload st (mk_exn RequestException (messages first))).
    2:{ specialize (Hfail 0%nat). rewrite !Nat.add_0_r in Hfail. apply Hfail. lia. }
    cbn [exn_class_of is_request_exception exn_str].
    replace (Z.of_nat first <? max_retries - 1) with true by (symmetry; apply Z.ltb_lt; lia).
    unfold bind at 1 2. unfold print, time_sleep, emit.
    match goal with
    | |- for_attempt_in _ _ _ ?s = _ =>
        replace s with (after st (failed_attempt_events payload (messages first) first))
    end.
    2:{ unfold after, failed_attempt_events. simpl. now rewrite <- !app_assoc. }
    rewrite (IH (S first) more).
    + rewrite after_after, retry_events_succ.
      replace (S first + count)%nat with (first + S count)%nat by lia. reflexivity.
    + lia.
    + intros i Hi. rewrite attempts_made_after.
      replace (attempts_made (log st)
               + attempts_made (failed_attempt_events payload (messages first) first) + i)%nat
        with (attempts_made (log st) + S i)%nat by (cbn; lia).
      replace (S first + i)%nat with (first + S i)%nat by lia. apply Hfail. lia.
Qed.

(** After [count] failed attempts that are retried, the call is at attempt
    [count], with the events of the retries in the log. *)
Lemma call_after_retries (payload : value) (max_retries : Z) (messages : nat -> string)
    (count : nat) (st : state) :
  Z.of_nat count < max_retries ->
  (forall i, (i < count)%nat ->
     http_exchange (attempts_made (log st) + i) payload
     = Raise (mk_exn RequestException (messages i))) ->
  exists later,
    call_gemini_api_with_backoff payload max_retries st
    = for_attempt_in payload max_retries (Z.of_nat count :: later)
        (after st (retry_events payload messages 0 count)).
Proof.
  intros Hmax Hfail.
  pose (more := (Z.to_nat max_retries - S count)%nat).
  assert (E : Z.to_nat max_retries = (count + S more)%nat) by (subst more; lia).
  clearbody more.
  exists (map Z.of_nat (seq (S count) more)).
  unfold call_gemini_api_with_backoff, py_range. rewrite E.
  rewrite (for_attempt_in_retries payload max_retries messages count 0); [reflexivity|lia|].
  intros i Hi. now apply Hfail.
Qed.




(** *** What a call can add to the log *)

Lemma attempt_once_state (payload : value) (st : state) :
  snd (attempt_once payload st) = after st [Post payload].
Proof.
  unfold attempt_once, bind, requests_post_json, lift, raise, ret.
  destruct (http_exchange (attempts_made (log st)) payload) as [result|e];
    [|reflexivity].
  destruct (py_in "error" result) as [[|]|e]; try reflexivity.
  destruct (py_get result "error" (VDict [])) as [error|e]; [|reflexivity].
  destruct (py_get error "message" (VStr "Unknown API Error")); reflexivity.
Qed.

(** Whatever the service does, the loop sends the same payload at every
    attempt, and no more often than it has attempts. *)
Lemma for_attempt_in_log (payload : value) (max_retries : Z) (attempts : list Z) :
  forall st, exists events,
    snd (for_attempt_in payload max_retries attempts st) = after st events
    /\ posted events = repeat payload (attempts_made events)
    /\ (attempts_made events <= List.length attempts)%nat.
Proof.
  induction attempts as [|attempt later IH]; intros st.
  - exists []. cbn. rewrite after_nil. repeat split. lia.
  - cbn [for_attempt_in]. unfold try_except.
    pose proof (attempt_once_state payload st) as Hst.
    destruct (attempt_once payload st) as [[result|e] st1]; cbn [snd] in Hst; subst st1.
    + exists [Post payload]. cbn. repeat split. lia.
    + destruct (is_request_exception (exn_class_of e)).
      * destruct (attempt <? max_retries - 1).
        -- unfold bind at 1 2. unfold print, time_sleep, emit.
           match goal with
           | |- context [for_attempt_in _ _ _ ?s] => destruct (IH s) as (events & Hsnd & Hposted & Hcount)
           end.
           exists ([Post payload;
                    Print ("API call failed: " ++ exn_str e ++ ". Retrying in "
                           ++ str_of_Z (2 ^ attempt) ++ "s...");
                    Sleep (2 ^ attempt)] ++ events)%list.
           split; [|split].
           ++ rewrite Hsnd. unfold after. simpl. now rewrite <- !app_assoc.
           ++ rewrite posted_app, attempts_made_app, Hposted. reflexivity.
           ++ rewrite attempts_made_app. cbn. lia.
        -- exists [Post payload]. cbn. repeat split. lia.
      * exists [Post payload]. cbn. repeat split. lia.
Qed.

(** A call sends at most [max_retries] requests, each with its payload. *)
Lemma call_log (payload : value) (max_retries : Z) (st : state) :
  exists events,
    snd (call_gemini_api_with_backoff payload max_retries st) = after st events
    /\ posted events = repeat payload (attempts_made events)
    /\ (Z.of_nat (attempts_made events) <= Z.max 0 max_retries).
Proof.
  unfold call_gemini_api_with_backoff.
  destruct (for_attempt_in_log payload max_retries (py_range max_retries) st)
    as (events & Hsnd & Hposted & Hcount).
  exists events. split; [exact Hsnd|]. split; [exact Hposted|].
  unfold py_range in Hcount. rewrite length_map, length_seq in Hcount. lia.
Qed.

End Backoff.
(** ** The handler *)

Lemma str_truthy_nonempty (s : string) : s <> EmptyString -> str_truthy s = true.
Proof. destruct s; [congruence | reflexivity]. Qed.

Lemma build_payload_runs (jd : string) (resume_stream : list byte) (st : state) :
  upload_read st = false ->
  build_payload jd resume_stream st
  = (Ok (resume_payload jd resume_stream), mk_state true (log st)).
Proof.
  intros H. unfold build_payload, file_to_base64_part, bind, stream_read, ret.
  rewrite H. reflexivity.
Qed.

Section Handler.

Context {rt : Runtime}.

Lemma unexpected_runs (e : exn) (st : state) :
  console_error ("An unexpected error occurred: " ++ exn_str e) = None ->
  unexpected e st
  = (Ok (error_body (exn_str e), 500),
     after st [Print ("An unexpected error occurred: " ++ exn_str e)]).
Proof.
  intros H. unfold unexpected, bind, print_checked. rewrite H. reflexivity.
Qed.

(** When the console refuses the diagnostic line, the exception of [print]
    leaves the last-resort handler, and nothing is printed. *)
Lemma unexpected_raises (e refusal : exn) (st : state) :
  console_error ("An unexpected error occurred: " ++ exn_str e) = Some refusal ->
  unexpected e st = (Raise refusal, st).
Proof.
  intros H. unfold unexpected, bind, print_checked, raise. rewrite H. reflexivity.
Qed.

Lemma is_ascii_text_app (s1 s2 : string) :
  is_ascii_text (s1 ++ s2) = is_ascii_text s1 && is_ascii_text s2.
Proof.
  unfold is_ascii_text. induction s1 as [|c s1 IH]; [reflexivity|].
  cbn [append list_ascii_of_string forallb]. now rewrite IH, andb_assoc.
Qed.

(** A line of ASCII characters is always written. *)
Lemma console_error_ascii (line : string) :
  is_ascii_text line = true -> console_error line = None.
Proof. intros H. unfold console_error. now rewrite H. Qed.

(** A valid request goes through to the service; what the handler returns
    is decided by the outcome of the call. *)
Lemma analyze_resume_valid (req : request) (jd : string) (resume_file : FileStorage)
    (outcome : result value) (st1 : state) :
  valid_request req jd resume_file ->
  call_gemini_api_with_backoff (resume_payload jd (stream resume_file)) 5 built_state
  = (outcome, st1) ->
  analyze_resume req initial_state
  = match outcome with
    | Ok api_result =>
        try_except (extract_and_validate api_result) any_exception unexpected st1
    | Raise e => unexpected e st1
    end.
Proof.
  intros (Hjd & Tjd & Hfile & Tfile & Hmime) Hcall.
  apply str_truthy_nonempty in Tjd, Tfile.
  unfold analyze_resume, file_truthy. rewrite Hjd, Hfile, Tjd, Tfile, Hmime.
  rewrite String.eqb_refl. cbn [negb orb].
  unfold try_except at 1. unfold bind at 1.
  rewrite build_payload_runs by reflexivity.
  unfold bind at 1. change (mk_state true (log initial_state)) with built_state.
  rewrite Hcall. destruct outcome as [api_result|e]; reflexivity.
Qed.

(** *** Extraction and validation of the reply *)

Lemma all_in_dict (keys : list string) (entries : list (string * value)) :
  all_in keys (VDict entries) = Ok (forallb (fun key => dict_has key entries) keys).
Proof.
  induction keys as [|key keys IH]; [reflexivity|].
  cbn [all_in py_in forallb]. destruct (dict_has key entries); [exact IH | reflexivity].
Qed.

(** The validation step touches neither the upload nor the log. *)
Lemma extract_and_validate_state (api_result : value) (st : state) :
  snd (extract_and_validate api_result st) = st.
Proof.
  unfold extract_and_validate, try_except, bind, lift, ret.
  destruct (extract_text api_result) as [json_text|e]; cbn [fst snd].
  - destruct (py_json_loads json_text) as [report_data|e].
    + destruct (all_in required_keys report_data) as [[|]|e]; cbn [fst snd];
        try reflexivity.
      destruct (is_decode_or_key_error (exn_class_of e)); reflexivity.
    + destruct (is_decode_or_key_error (exn_class_of e)); reflexivity.
  - destruct (is_decode_or_key_error (exn_class_of e)); reflexivity.
Qed.


Lemma validate_incomplete (api_result : value) (st : state) (text : string)
    (report : list (string * value)) :
  extract_text api_result = Ok (VStr text) ->
  json_loads text = Ok (VDict report) ->
  (exists key, In key required_keys /\ dict_has key report = false) ->
  extract_and_validate api_result st
  = (Ok (error_body "AI response was missing required fields.", 500), st).
Proof.
  intros Htext Hloads (key & Hin & Hmissing).
  unfold extract_and_validate, try_except, bind, lift, ret.
  rewrite Htext. cbn [py_json_loads]. rewrite Hloads, all_in_dict.
  replace (forallb _ required_keys) with false; [reflexivity|].
  symmetry. apply not_true_is_false. intros Hall.
  rewrite forallb_forall in Hall. specialize (Hall key Hin). congruence.
Qed.

Lemma validate_undecodable (api_result : value) (st : state) (text : string)
    (e : exn) :
  extract_text api_result = Ok (VStr text) ->
  json_loads text = Raise e ->
  exn_class_of e = JSONDecodeError ->
  extract_and_validate api_result st
  = (Ok (error_body "Failed to parse AI response.", 500), st).
Proof.
  intros Htext Hloads Hclass.
  unfold extract_and_validate, try_except, bind, lift, ret.
  rewrite Htext. cbn [py_json_loads]. rewrite Hloads, Hclass. reflexivity.
Qed.

(** An exception of the decoder that the inner [except] does not name
    leaves the validation step. *)
Lemma validate_decoder_raises (api_result : value) (st : state) (text : string)
    (e : exn) :
  extract_text api_result = Ok (VStr text) ->
  json_loads text = Raise e ->
  is_decode_or_key_error (exn_class_of e) = false ->
  extract_and_validate api_result st = (Raise e, st).
Proof.
  intros Htext Hloads Hclass.
  unfold extract_and_validate, try_except, bind, lift, ret.
  rewrite Htext. cbn [py_json_loads]. rewrite Hloads, Hclass. reflexivity.
Qed.

(** An exception of the extraction that the inner [except] does not name
    leaves the validation step. *)
Lemma validate_raises (api_result : value) (st : state) (e : exn) :
  extract_text api_result = Raise e ->
  is_decode_or_key_error (exn_class_of e) = false ->
  extract_and_validate api_result st = (Raise e, st).
Proof.
  intros Htext Hclass.
  unfold extract_and_validate, try_except, bind, lift.
  rewrite Htext, Hclass. reflexivity.
Qed.

End Handler.

(** ** The contract of the adapter *)

Section Contract.

Context {rt : Runtime}.


End Contract.


Section Responses.

Context {rt : Runtime}.



(** C4, as amended.  For a valid request whose call succeeds and whose
    reply carries a text: a text on which the decoder raises
    [JSONDecodeError] is answered HTTP 500 "Failed to parse AI response.",
    and a text that decodes to an object without one of the five required
    keys is answered HTTP 500 "AI response was missing required fields.".
    (A text on which the decoder raises another exception is not answered
    with the first message: see [decoder_failure_is_unexpected_error].) *)
Theorem malformed_reply_fixed_messages
    (req : request) (jd : string) (resume_file : FileStorage)
    (api_result : value) (st1 : state) (text : string) :
  valid_request req jd resume_file ->
  call_gemini_api_with_backoff (resume_payload jd (stream resume_file)) 5 built_state
  = (Ok api_result, st1) ->
  extract_text api_result = Ok (VStr text) ->
  (forall e,
     json_loads text = Raise e ->
     exn_class_of e = JSONDecodeError ->
     analyze_resume req initial_state
     = (Ok (error_body "Failed to parse AI response.", 500), st1))
  /\
  (forall report,
     json_loads text = Ok (VDict report) ->
     (exists key, In key required_keys /\ dict_has key report = false) ->
     analyze_resume req initial_state
     = (Ok (error_body "AI response was missing required fields.", 500), st1)).
Proof.
  intros Hvalid Hcall Htext.
  rewrite (analyze_resume_valid req jd resume_file _ _ Hvalid Hcall).
  unfold try_except. split.
  - intros e Hloads Hclass.
    now rewrite (validate_undecodable api_result st1 text e).
  - intros report Hloads Hmissing.
    now rewrite (validate_incomplete api_result st1 text report).
Qed.

(** C5. A request without [job_description], with an empty one, or
    without [resume_pdf] is answered HTTP 400 "Missing job description or
    resume file."; the state is left as it was: the upload is not read
    (no payload is built) and nothing is sent, slept or printed (the
    caller is not run). *)
Theorem missing_input_rejected (req : request) (st : state) :
  multidict_get "job_description" (form req) = None
  \/ multidict_get "job_description" (form req) = Some EmptyString
  \/ multidict_get "resume_pdf" (files req) = None ->
  analyze_resume req st
  = (Ok (error_body "Missing job description or resume file.", 400), st).
Proof.
  intros [H|[H|H]]; unfold analyze_resume, try_except; rewrite H.
  - reflexivity.
  - destruct (multidict_get "resume_pdf" (files req)); reflexivity.
  - destruct (multidict_get "job_description" (form req)); reflexivity.
Qed.

(** X16. An upload without a file name is falsy, and the request is
    answered like one without the upload: HTTP 400 "Missing job description
    or resume file.", whatever its media type and the job description, with
    nothing read or sent. *)
Lemma unnamed_upload_rejected (req : request) (resume_file : FileStorage) (st : state) :
  multidict_get "resume_pdf" (files req) = Some resume_file ->
  filename resume_file = EmptyString ->
  analyze_resume req st
  = (Ok (error_body "Missing job description or resume file.", 400), st).
Proof.
  intros Hfile Hname. unfold analyze_resume, try_except, file_truthy.
  rewrite Hfile, Hname.
  destruct (multidict_get "job_description" (form req)) as [jd|]; [|reflexivity].
  cbn [str_truthy negb]. now rewrite orb_true_r.
Qed.

(** C6. A request with a non-empty [job_description] and a [resume_pdf]
    that is there and not falsy (it has a file name), whose media type is
    not exactly [application/pdf], is answered HTTP 400 "Only PDF files are
    supported."; the state is left as it was: no payload is built and the
    caller is not run. *)
Theorem non_pdf_rejected
    (req : request) (jd : string) (resume_file : FileStorage) (st : state) :
  multidict_get "job_description" (form req) = Some jd ->
  jd <> EmptyString ->
  multidict_get "resume_pdf" (files req) = Some resume_file ->
  filename resume_file <> EmptyString ->
  mimetype resume_file <> "application/pdf" ->
  analyze_resume req st = (Ok (error_body "Only PDF files are supported.", 400), st).
Proof.
  intros Hjd Tjd Hfile Tfile Hmime.
  apply str_truthy_nonempty in Tjd, Tfile.
  apply String.eqb_neq in Hmime.
  unfold analyze_resume, try_except, file_truthy.
  rewrite Hjd, Hfile, Tjd, Tfile, Hmime. reflexivity.
Qed.

(** C7. The payload built for a job description and the bytes of a
    résumé: its user-prompt text part contains the job description as a
    contiguous substring; its second part is the inline data part with the
    media type and the base64 text of the bytes (from which the bytes are
    recovered); its generation configuration asks for JSON and attaches
    [RESPONSE_SCHEMA], whose properties and required keys are the five
    keys. *)
Theorem payload_carries_inputs_and_schema (jd : string) (resume_bytes : list byte) :
  let payload := resume_payload jd resume_bytes in
  build_payload jd resume_bytes initial_state = (Ok payload, built_state)
  /\ (exists before rest,
        py_path payload [Key "contents"; Index 0; Key "parts"; Index 0; Key "text"]
        = Ok (VStr (before ++ jd ++ rest)))
  /\ (forall mime_type,
        file_to_base64_part resume_bytes mime_type initial_state
        = (Ok (VDict [("inlineData",
                       VDict [("mimeType", VStr mime_type);
                              ("data", VStr (b64encode resume_bytes))])]),
           built_state))
  /\ py_path payload [Key "contents"; Index 0; Key "parts"; Index 1]
     = Ok (VDict [("inlineData",
                   VDict [("mimeType", VStr "application/pdf");
                          ("data", VStr (b64encode resume_bytes))])])
  /\ b64decode (b64encode resume_bytes) = Some resume_bytes
  /\ py_path payload [Key "generationConfig"]
     = Ok (VDict [("responseMimeType", VStr "application/json");
                  ("responseSchema", RESPONSE_SCHEMA)])
  /\ py_path RESPONSE_SCHEMA [Key "required"]
     = Ok (VList [VStr "match_percentage"; VStr "strengths";
                  VStr "improvement_suggestions"; VStr "matching_skills";
                  VStr "missing_skills"])
  /\ (exists properties,
        py_path RESPONSE_SCHEMA [Key "properties"] = Ok (VDict properties)
        /\ map fst properties = required_keys).
Proof.
  intros payload. subst payload.
  split; [reflexivity|]. split.
  { exists "Analyze the resume against the following Job Description (JD) and provide a structured ATS report. JD: ", EmptyString.
    rewrite append_empty_r. reflexivity. }
  split; [reflexivity|]. split; [reflexivity|].
  split; [apply b64decode_encode|].
  split; [reflexivity|]. split; [reflexivity|].
  eexists. split; reflexivity.
Qed.

(** C10. When the reply of a valid request has an empty [candidates]
    list, or an empty [parts] list under its first candidate, the
    extraction raises [IndexError], which the inner [except] does not
    name; the last-resort handler answers HTTP 500 with the text of the
    exception, "list index out of range", and not with "Failed to parse AI
    response.". *)
Theorem empty_candidates_or_parts_index_error
    (req : request) (jd : string) (resume_file : FileStorage)
    (api_result : value) (st1 : state) :
  valid_request req jd resume_file ->
  call_gemini_api_with_backoff (resume_payload jd (stream resume_file)) 5 built_state
  = (Ok api_result, st1) ->
  py_path api_result [Key "candidates"] = Ok (VList [])
  \/ py_path api_result [Key "candidates"; Index 0; Key "content"; Key "parts"]
     = Ok (VList []) ->
  extract_text api_result = Raise (mk_exn IndexError "list index out of range")
  /\ is_decode_or_key_error IndexError = false
  /\ analyze_resume req initial_state
     = (Ok (error_body "list index out of range", 500),
        after st1 [Print "An unexpected error occurred: list index out of range"])
  /\ error_body "list index out of range" <> error_body "Failed to parse AI response.".
Proof.
  intros Hvalid Hcall Hempty.
  assert (Htext : extract_text api_result
                  = Raise (mk_exn IndexError "list index out of range")).
  { unfold extract_text. destruct Hempty as [H|H].
    - cbn [py_path] in *.
      destruct (py_getitem api_result (Key "candidates")) as [candidates|e];
        [|discriminate].
      injection H as ->. reflexivity.
    - cbn [py_path] in *.
      destruct (py_getitem api_result (Key "candidates")) as [candidates|e];
        [|discriminate].
      destruct (py_getitem candidates (Index 0)) as [candidate|e]; [|discriminate].
      destruct (py_getitem candidate (Key "content")) as [content|e]; [|discriminate].
      destruct (py_getitem content (Key "parts")) as [parts|e]; [|discriminate].
      injection H as ->. reflexivity. }
  split; [exact Htext|]. split; [reflexivity|]. split; [|discriminate].
  rewrite (analyze_resume_valid req jd resume_file _ _ Hvalid Hcall).
  unfold try_except.
  rewrite (validate_raises api_result st1 _ Htext) by reflexivity.
  cbn [any_exception exn_class_of]. now rewrite unexpected_runs by reflexivity.
Qed.

(** An exception of the decoder other than [JSONDecodeError] (and
    [KeyError]) is not caught by the inner [except]: a valid request is
    answered by the last-resort handler, HTTP 500 with the text of the
    exception when the console writes the diagnostic line. *)
Lemma decoder_failure_is_unexpected_error
    (req : request) (jd : string) (resume_file : FileStorage)
    (api_result : value) (st1 : state) (text : string) (e : exn) :
  valid_request req jd resume_file ->
  call_gemini_api_with_backoff (resume_payload jd (stream resume_file)) 5 built_state
  = (Ok api_result, st1) ->
  extract_text api_result = Ok (VStr text) ->
  json_loads text = Raise e ->
  is_decode_or_key_error (exn_class_of e) = false ->
  console_error ("An unexpected error occurred: " ++ exn_str e) = None ->
  analyze_resume req initial_state
  = (Ok (error_body (exn_str e), 500),
     after st1 [Print ("An unexpected error occurred: " ++ exn_str e)]).
Proof.
  intros Hvalid Hcall Htext Hloads Hclass Hwritten.
  rewrite (analyze_resume_valid req jd resume_file _ _ Hvalid Hcall).
  unfold try_except.
  rewrite (validate_decoder_raises api_result st1 text e) by assumption.
  cbn [any_exception]. now apply unexpected_runs.
Qed.

End Responses.

(** C8. Building the payload is a function of the job description, the
    bytes left in the upload and the media type: from equal inputs, in any
    two states where the upload has not been read, the inline part and the
    payload are the same values; the construction returns (it raises
    nothing) and adds no event to the log: it sends, sleeps and prints
    nothing. *)
Theorem payload_builder_deterministic
    (jd1 jd2 : string) (bytes1 bytes2 : list byte) (mime1 mime2 : string)
    (st1 st2 : state) :
  jd1 = jd2 -> bytes1 = bytes2 -> mime1 = mime2 ->
  upload_read st1 = false -> upload_read st2 = false ->
  exists part payload,
    file_to_base64_part bytes1 mime1 st1 = (Ok part, mk_state true (log st1))
    /\ file_to_base64_part bytes2 mime2 st2 = (Ok part, mk_state true (log st2))
    /\ build_payload jd1 bytes1 st1 = (Ok payload, mk_state true (log st1))
    /\ build_payload jd2 bytes2 st2 = (Ok payload, mk_state true (log st2)).
Proof.
  intros <- <- <- H1 H2.
  exists (inline_part bytes1 mime1), (resume_payload jd1 bytes1).
  rewrite !build_payload_runs by assumption.
  unfold file_to_base64_part, bind, stream_read, ret. rewrite H1, H2.
  repeat split.
Qed.

(** ** The shape of every response *)

Section Shape.

Context {rt : Runtime}.






End Shape.

(** C9, on the reply whose text is the JSON array of the five key names:
    every key is [in] the decoded list, so the handler answers HTTP 200
    with the list, which is neither an AnalysisReport nor an error body. *)
Theorem key_list_reply_served_as_report :
  fst (analyze_resume (rt := rt_key_list) example_request initial_state)
  = Ok (VList [VStr "match_percentage"; VStr "strengths";
               VStr "improvement_suggestions"; VStr "matching_skills";
               VStr "missing_skills"], 200)
  /\ ~ is_analysis_report (VList example_key_list)
  /\ ~ is_error_body (VList example_key_list).
Proof.
  split; [vm_compute; reflexivity|].
  split; intros (x & H); [destruct H as [H _]|]; discriminate.
Qed.

(** ** The contract on the worked examples *)

Lemma example_request_valid : valid_request example_request example_jd example_file.
Proof. repeat split; discriminate. Qed.





(** C4 on a reply whose text is 1001 opening brackets: the text is not
    JSON, the decoder gives up with [RecursionError], which the inner
    [except] does not name, and the answer is not "Failed to parse AI
    response.". *)
Lemma deep_nesting_reply_not_parse_failure :
  json_loads (Runtime := rt_deep_nesting) deep_text = Raise recursion_error
  /\ analyze_resume (rt := rt_deep_nesting) example_request initial_state
     = (Ok (error_body
              "maximum recursion depth exceeded while decoding a JSON array from a unicode string",
            500),
        after built_state
          [Post example_payload;
           Print ("An unexpected error occurred: "
                  ++ "maximum recursion depth exceeded while decoding a JSON array from a unicode string")])
  /\ fst (analyze_resume (rt := rt_deep_nesting) example_request initial_state)
     <> Ok (error_body "Failed to parse AI response.", 500).
Proof.
  split; [vm_compute; reflexivity|].
  split; [vm_compute; reflexivity|].
  vm_compute. discriminate.
Qed.

(** C4, as amended, on a reply that the decoder rejects as not JSON and on
    a report without [missing_skills]. *)
Lemma malformed_reply_fixed_messages_witness :
  analyze_resume (rt := rt_bad_json) example_request initial_state
  = (Ok (error_body "Failed to parse AI response.", 500),
     after built_state [Post example_payload])
  /\ analyze_resume (rt := rt_short_report) example_request initial_state
     = (Ok (error_body "AI response was missing required fields.", 500),
        after built_state [Post example_payload]).
Proof.
  split.
  - apply (proj1 (malformed_reply_fixed_messages (rt := rt_bad_json)
                    example_request example_jd example_file
                    (reply_with_text "Sorry, I cannot help with that.") _
                    "Sorry, I cannot help with that."
                    example_request_valid ltac:(vm_compute; reflexivity)
                    ltac:(reflexivity))
             (mk_exn JSONDecodeError "Expecting value: line 1 column 1 (char 0)")).
    + vm_compute. reflexivity.
    + reflexivity.
  - apply (proj2 (malformed_reply_fixed_messages (rt := rt_short_report)
                    example_request example_jd example_file
                    (reply_with_text example_short_report_text) _
                    example_short_report_text
                    example_request_valid ltac:(vm_compute; reflexivity)
                    ltac:(reflexivity))
             example_short_report).
    + vm_compute. reflexivity.
    + exists "missing_skills". split; [|reflexivity].
      cbn. tauto.
Defined.

(** C5 on a request without [job_description] and on one with an empty
    [job_description]. *)
Lemma missing_input_rejected_witness :
  multidict_get "job_description" (form example_no_jd_request) = None
  /\ analyze_resume (rt := rt_report) example_no_jd_request initial_state
     = (Ok (error_body "Missing job description or resume file.", 400), initial_state)
  /\ analyze_resume (rt := rt_report) example_empty_jd_request initial_state
     = (Ok (error_body "Missing job description or resume file.", 400), initial_state).
Proof.
  split; [reflexivity|]. split.
  - apply (missing_input_rejected (rt := rt_report)). left. reflexivity.
  - apply (missing_input_rejected (rt := rt_report)). right. left. reflexivity.
Defined.

(** C6 on an upload declared as [image/png]. *)
Lemma non_pdf_rejected_witness :
  mimetype (mk_file "photo.png" "image/png" example_pdf) <> "application/pdf"
  /\ analyze_resume (rt := rt_report) example_png_request initial_state
     = (Ok (error_body "Only PDF files are supported.", 400), initial_state).
Proof.
  split; [discriminate|].
  apply (non_pdf_rejected (rt := rt_report) example_png_request example_jd
           (mk_file "photo.png" "image/png" example_pdf)).
  - reflexivity.
  - discriminate.
  - reflexivity.
  - discriminate.
  - discriminate.
Defined.

(** C8 on the example, from a fresh state and from a state with a log. *)
Lemma payload_builder_deterministic_witness :
  exists part payload,
    file_to_base64_part example_pdf "application/pdf" initial_state
    = (Ok part, mk_state true [])
    /\ file_to_base64_part example_pdf "application/pdf"
         (mk_state false [Print "started"])
       = (Ok part, mk_state true [Print "started"])
    /\ build_payload example_jd example_pdf initial_state
       = (Ok payload, mk_state true [])
    /\ build_payload example_jd example_pdf (mk_state false [Print "started"])
       = (Ok payload, mk_state true [Print "started"]).
Proof.
  apply (payload_builder_deterministic example_jd example_jd example_pdf example_pdf
           "application/pdf" "application/pdf"
           initial_state (mk_state false [Print "started"]));
    reflexivity.
Defined.

(** C10 on a reply without candidates. *)
Lemma empty_candidates_or_parts_index_error_witness :
  py_path (rt := rt_no_candidates) (VDict [("candidates", VList [])]) [Key "candidates"]
  = Ok (VList [])
  /\ analyze_resume (rt := rt_no_candidates) example_request initial_state
     = (Ok (error_body "list index out of range", 500),
        after built_state
          [Post example_payload;
           Print "An unexpected error occurred: list index out of range"]).
Proof.
  split; [reflexivity|].
  destruct (empty_candidates_or_parts_index_error (rt := rt_no_candidates)
              example_request example_jd example_file
              (VDict [("candidates", VList [])])
              (after built_state [Post example_payload])
              example_request_valid) as (_ & _ & H & _).
  - vm_compute. reflexivity.
  - left. reflexivity.
  - exact H.
Defined.

(** * Further properties of the code *)

(** ** Arithmetic of the delays *)

Lemma backoff_delays_succ (n : nat) :
  backoff_delays (S n) = (backoff_delays n ++ [2 ^ Z.of_nat n])%list.
Proof.
  unfold backoff_delays. rewrite seq_S, map_app. reflexivity.
Qed.

Lemma total_seconds_app (l1 l2 : list Z) :
  total_seconds (l1 ++ l2) = total_seconds l1 + total_seconds l2.
Proof.
  induction l1 as [|x l1 IH]; cbn [total_seconds fold_right app]; [reflexivity|].
  fold (total_seconds (l1 ++ l2)). fold (total_seconds l1). lia.
Qed.

(** 1 + 2 + ... + 2^(n-1) = 2^n - 1 *)
Lemma total_backoff_delays (n : nat) : total_seconds (backoff_delays n) = 2 ^ Z.of_nat n - 1.
Proof.
  induction n as [|n IH]; [reflexivity|].
  rewrite backoff_delays_succ, total_seconds_app, IH.
  cbn [total_seconds fold_right].
  rewrite Nat2Z.inj_succ, Z.pow_succ_r by lia. lia.
Qed.

Lemma shifted_delays (first count : nat) :
  (2 ^ Z.of_nat first :: map (fun i => 2 ^ Z.of_nat i) (seq (S first) count))
  = map (fun i => 2 ^ Z.of_nat i) (seq first (S count)).
Proof. reflexivity. Qed.

Section Loop.

Context {rt : Runtime}.

(** ** What every run of the loop looks like *)

Lemma attempt_once_returned (payload : value) (st st' : state) (body : value) :
  attempt_once payload st = (Ok body, st') ->
  http_exchange (attempts_made (log st)) payload = Ok body
  /\ py_in "error" body = Ok false.
Proof.
  unfold attempt_once, bind, requests_post_json, lift, raise, ret.
  destruct (http_exchange (attempts_made (log st)) payload) as [result|e];
    [|discriminate].
  destruct (py_in "error" result) as [[|]|e] eqn:Hin; try discriminate.
  - destruct (py_get result "error" (VDict [])) as [error|e]; [|discriminate].
    destruct (py_get error "message" (VStr "Unknown API Error")); discriminate.
  - intros H. injection H as <- _. now split.
Qed.

Lemma retry_events_ext (payload : value) (m1 m2 : nat -> string) :
  forall (count first : nat),
    (forall i, (first <= i < first + count)%nat -> m1 i = m2 i) ->
    retry_events payload m1 first count = retry_events payload m2 first count.
Proof.
  induction count as [|count IH]; intros first Hext; [reflexivity|].
  rewrite !retry_events_succ, (Hext first) by lia.
  rewrite (IH (S first)); [reflexivity|]. intros i Hi. apply Hext. lia.
Qed.

(** A loop over the attempts [first, ..., first + count] that end at
    [max_retries - 1]: after some [k] retried failures it is over at
    attempt [first + k].  Its log is that of the [k] retries, each a
    request, a diagnostic line and a sleep of 2^attempt seconds, followed
    by one last request and nothing else; a body it returns is the reply
    to that request and has no [error]. *)
Lemma loop_shape (payload : value) (max_retries : Z) :
  forall (count first : nat) (st : state),
    Z.of_nat (first + S count) = max_retries ->
    exists (k : nat) (messages : nat -> string) (outcome : result value),
      for_attempt_in payload max_retries (map Z.of_nat (seq first (S count))) st
      = (outcome,
         after st (retry_events payload messages first k ++ [Post payload]))
      /\ (k <= count)%nat
      /\ (forall body, outcome = Ok body ->
            http_exchange (attempts_made (log st) + k) payload = Ok body
            /\ py_in "error" body = Ok false).
Proof.
  induction count as [|count IH]; intros first st Hmax.
  - (* the last attempt: never retried *)
    cbn [seq map for_attempt_in]. unfold try_except.
    pose proof (attempt_once_state payload st) as Hst.
    destruct (attempt_once payload st) as [[body|e] st1] eqn:Hrun;
      cbn [snd] in Hst; subst st1.
    + exists 0%nat, (fun _ => EmptyString), (Ok body).
      split; [reflexivity|]. split; [lia|].
      intros b Hb. injection Hb as <-. rewrite Nat.add_0_r.
      exact (attempt_once_returned _ _ _ _ Hrun).
    + replace (Z.of_nat first <? max_retries - 1) with false
        by (symmetry; apply Z.ltb_ge; lia).
      destruct (is_request_exception (exn_class_of e)); unfold raise;
        eexists 0%nat, (fun _ => EmptyString), _;
        (split; [reflexivity|]); (split; [lia|]); intros b Hb; discriminate.
  - change (map Z.of_nat (seq first (S (S count))))
      with (Z.of_nat first :: map Z.of_nat (seq (S first) (S count))).
    remember (map Z.of_nat (seq (S first) (S count))) as later eqn:Hlater.
    cbn [for_attempt_in]. unfold try_except.
    pose proof (attempt_once_state payload st) as Hst.
    destruct (attempt_once payload st) as [[body|e] st1] eqn:Hrun;
      cbn [snd] in Hst; subst st1.
    + exists 0%nat, (fun _ => EmptyString), (Ok body).
      split; [reflexivity|]. split; [lia|].
      intros b Hb. injection Hb as <-. rewrite Nat.add_0_r.
      exact (attempt_once_returned _ _ _ _ Hrun).
    + destruct (is_request_exception (exn_class_of e)).
      * replace (Z.of_nat first <? max_retries - 1) with true
          by (symmetry; apply Z.ltb_lt; lia).
        unfold bind at 1 2. unfold print, time_sleep, emit.
        match goal with
        | |- context [for_attempt_in _ _ _ ?s] =>
            replace s with (after st (failed_attempt_events payload (exn_str e) first))
        end.
        2:{ unfold after, failed_attempt_events. simpl. now rewrite <- !app_assoc. }
        destruct (IH (S first) (after st (failed_attempt_events payload (exn_str e) first)))
          as (k & messages & outcome & Hloop & Hk & Hbody).
        { lia. }
        exists (S k),
          (fun i => if Nat.eqb i first then exn_str e else messages i), outcome.
        split.
        { rewrite Hlater, Hloop, after_after, retry_events_succ, Nat.eqb_refl.
          rewrite <- app_assoc. do 4 f_equal.
          apply retry_events_ext. intros i Hi.
          destruct (Nat.eqb_spec i first); [lia | reflexivity]. }
        split; [lia|].
        intros body Hb. destruct (Hbody body Hb) as [Hx Hin]. split; [|exact Hin].
        rewrite attempts_made_after in Hx.
        replace (attempts_made (log st) + S k)%nat
          with (attempts_made (log st)
                + attempts_made (failed_attempt_events payload (exn_str e) first) + k)%nat
          by (cbn; lia).
        exact Hx.
      * eexists 0%nat, (fun _ => EmptyString), _.
        split; [reflexivity|]. split; [lia|]. intros b Hb; discriminate.
Qed.

(** The same for a call with at least one attempt. *)
Lemma call_shape (payload : value) (max_retries : Z) (st : state) :
  1 <= max_retries ->
  exists (k : nat) (messages : nat -> string) (outcome : result value),
    call_gemini_api_with_backoff payload max_retries st
    = (outcome, after st (retry_events payload messages 0 k ++ [Post payload]))
    /\ Z.of_nat k < max_retries
    /\ (forall body, outcome = Ok body ->
          http_exchange (attempts_made (log st) + k) payload = Ok body
          /\ py_in "error" body = Ok false).
Proof.
  intros Hmax. unfold call_gemini_api_with_backoff, py_range.
  destruct (Z.to_nat max_retries) as [|count] eqn:Hn; [lia|].
  destruct (loop_shape payload max_retries count 0 st)
    as (k & messages & outcome & Hrun & Hk & Hbody).
  { lia. }
  exists k, messages, outcome. split; [exact Hrun|]. split; [lia | exact Hbody].
Qed.

(** What the log of the retries and the last request amounts to. *)
Lemma retries_then_post (payload : value) (messages : nat -> string) (k : nat) :
  let events := (retry_events payload messages 0 k ++ [Post payload])%list in
  attempts_made events = S k
  /\ posted events = repeat payload (S k)
  /\ sleeps events = backoff_delays k.
Proof.
  cbv zeta. split; [|split].
  - rewrite attempts_made_app, attempts_made_retry_events. cbn. lia.
  - rewrite posted_app, posted_retry_events. cbn [posted].
    change [payload] with (repeat payload 1). rewrite <- repeat_app.
    f_equal. lia.
  - rewrite sleeps_app, sleeps_retry_events. cbn [sleeps]. apply app_nil_r.
Qed.

Lemma call_outcome (payload : value) (max_retries : Z) (st : state) :
  1 <= max_retries ->
  exists (k : nat) (events : list event) (outcome : result value),
    call_gemini_api_with_backoff payload max_retries st = (outcome, after st events)
    /\ Z.of_nat k < max_retries
    /\ attempts_made events = S k
    /\ posted events = repeat payload (S k)
    /\ sleeps events = backoff_delays k
    /\ (forall body, outcome = Ok body ->
          http_exchange (attempts_made (log st) + k) payload = Ok body
          /\ py_in "error" body = Ok false).
Proof.
  intros Hmax.
  destruct (call_shape payload max_retries st Hmax)
    as (k & messages & outcome & Hrun & Hk & Hbody).
  destruct (retries_then_post payload messages k) as (Hposts & Hposted & Hsleeps).
  exists k, (retry_events payload messages 0 k ++ [Post payload])%list, outcome.
  repeat (split; [assumption|]). exact Hbody.
Qed.

End Loop.

Section Caller.

Context {rt : Runtime}.



(** X3. With a bound of zero or less the loop has no attempt: the call
    sends nothing, does not sleep, and returns [None]. *)
Theorem no_attempt_without_retries (payload : value) (max_retries : Z) (st : state) :
  max_retries <= 0 ->
  call_gemini_api_with_backoff payload max_retries st = (Ok VNone, st).
Proof.
  intros Hmax. unfold call_gemini_api_with_backoff, py_range.
  replace (Z.to_nat max_retries) with 0%nat by lia. reflexivity.
Qed.

(** X4. Whatever the service does, the log of a call with a bound of at
    least one attempt is exactly this: some [k] retried attempts, each
    the request, the diagnostic line and a sleep of 2^attempt seconds in
    that order, and then one last request, after which nothing is slept
    or printed.  So the call sends between 1 and [max_retries] requests,
    each with the payload it was given, sleeps only between two requests,
    for 2^0, 2^1, ... seconds, and 2^(requests-1) - 1 seconds in all,
    less than 2^(max_retries-1). *)
Theorem call_stays_within_budget (payload : value) (max_retries : Z) (st : state) :
  1 <= max_retries ->
  exists (k : nat) (messages : nat -> string) (outcome : result value),
    let events := (retry_events payload messages 0 k ++ [Post payload])%list in
    call_gemini_api_with_backoff payload max_retries st = (outcome, after st events)
    /\ List.last events (Sleep 0) = Post payload
    /\ attempts_made events = S k
    /\ Z.of_nat (S k) <= max_retries
    /\ posted events = repeat payload (S k)
    /\ sleeps events = backoff_delays k
    /\ total_seconds (sleeps events) = 2 ^ Z.of_nat k - 1
    /\ total_seconds (sleeps events) < 2 ^ (max_retries - 1).
Proof.
  intros Hmax.
  destruct (call_shape payload max_retries st Hmax)
    as (k & messages & outcome & Hrun & Hk & _).
  destruct (retries_then_post payload messages k) as (Hposts & Hposted & Hsleeps).
  exists k, messages, outcome. cbv zeta.
  assert (Htotal : total_seconds
                     (sleeps (retry_events payload messages 0 k ++ [Post payload]))
                   = 2 ^ Z.of_nat k - 1).
  { rewrite Hsleeps. apply total_backoff_delays. }
  split; [exact Hrun|]. split; [apply last_last|].
  repeat (split; [assumption || lia|]).
  rewrite Htotal.
  assert (2 ^ Z.of_nat k <= 2 ^ (max_retries - 1)) by (apply Z.pow_le_mono_r; lia).
  lia.
Qed.


(** X6. A body that a call with at least one attempt returns is the reply
    of the service to one of its requests, and ['error' in body] is false:
    the call never returns [None] and never returns an error reply. *)
Theorem returned_body_is_error_free
    (payload : value) (max_retries : Z) (st st' : state) (body : value) :
  1 <= max_retries ->
  call_gemini_api_with_backoff payload max_retries st = (Ok body, st') ->
  py_in "error" body = Ok false
  /\ body <> VNone
  /\ exists k, Z.of_nat k < max_retries
               /\ http_exchange (attempts_made (log st) + k) payload = Ok body.
Proof.
  intros Hmax Hrun.
  destruct (call_outcome payload max_retries st Hmax)
    as (k & events & outcome & Hrun' & Hk & _ & _ & _ & Hbody).
  rewrite Hrun in Hrun'. injection Hrun' as <- _.
  destruct (Hbody body eq_refl) as [Hx Hin].
  split; [exact Hin|]. split.
  - intros ->. discriminate.
  - now exists k.
Qed.

(** X7. A reply whose body is [null], a boolean or a number makes
    ['error' in result] raise [TypeError]: the call raises it on that
    attempt and does not retry. *)
Theorem scalar_reply_raises_type_error
    (payload : value) (max_retries : Z) (st : state) (reply : value) :
  1 <= max_retries ->
  http_exchange (attempts_made (log st)) payload = Ok reply ->
  is_scalar reply = true ->
  exists message,
    call_gemini_api_with_backoff payload max_retries st
    = (Raise (mk_exn TypeError message), after st [Post payload]).
Proof.
  intros Hmax Hreply Hscalar.
  destruct (call_after_retries payload max_retries (fun _ => EmptyString) 0 st)
    as [later ->]; [lia | intros i Hi; lia |].
  cbn [retry_events seq flat_map]. rewrite after_nil.
  cbn [for_attempt_in]. unfold try_except, attempt_once, bind, requests_post_json, lift.
  rewrite Hreply.
  destruct reply; try discriminate; cbn [py_in exn_class_of is_request_exception];
    eexists; reflexivity.
Qed.

(** X8. A reply that is an object whose [error] is not itself an object
    makes [.get('message', ...)] raise [AttributeError]: the call raises
    it on that attempt, instead of the "Gemini API error" exception, and
    does not retry. *)
Theorem non_object_error_raises_attribute_error
    (payload : value) (max_retries : Z) (st : state)
    (entries : list (string * value)) (error : value) :
  1 <= max_retries ->
  http_exchange (attempts_made (log st)) payload = Ok (VDict entries) ->
  dict_lookup "error" entries = Some error ->
  is_dict error = false ->
  call_gemini_api_with_backoff payload max_retries st
  = (Raise (mk_exn AttributeError
              ("'" ++ type_name error ++ "' object has no attribute 'get'")),
     after st [Post payload]).
Proof.
  intros Hmax Hreply Herror Hshape.
  destruct (call_after_retries payload max_retries (fun _ => EmptyString) 0 st)
    as [later ->]; [lia | intros i Hi; lia |].
  cbn [retry_events seq flat_map]. rewrite after_nil.
  cbn [for_attempt_in]. unfold try_except, attempt_once, bind, requests_post_json, lift.
  rewrite Hreply. cbn [py_in py_get]. unfold dict_has. rewrite Herror.
  destruct error; try discriminate; reflexivity.
Qed.

End Caller.

(** ** The handler, further *)

Lemma str_truthy_true (s : string) : str_truthy s = true -> s <> EmptyString.
Proof. destruct s; [discriminate|]. intros _ H. discriminate. Qed.

Section HandlerExtras.

Context {rt : Runtime}.

Lemma py_path_app (v : value) (p q : list subscript) :
  py_path v (p ++ q)
  = match py_path v p with
    | Ok x => py_path x q
    | Raise e => Raise e
    end.
Proof.
  revert v; induction p as [|sub p IH]; intros v; cbn [py_path app]; [reflexivity|].
  destruct (py_getitem v sub) as [x|e]; [apply IH | reflexivity].
Qed.

Lemma validate_handled (api_result : value) (st : state) (e : exn) :
  extract_text api_result = Raise e ->
  is_decode_or_key_error (exn_class_of e) = true ->
  extract_and_validate api_result st
  = (Ok (error_body "Failed to parse AI response.", 500), st).
Proof.
  intros Htext Hclass.
  unfold extract_and_validate, try_except, bind, lift.
  rewrite Htext, Hclass. reflexivity.
Qed.

(** X9. When one of the keys of the path to the text ([candidates],
    [content], [parts], [text]) is missing from the object it is looked up
    in, the extraction raises [KeyError] and a valid request is answered
    HTTP 500 "Failed to parse AI response.", with nothing printed. *)
Theorem missing_key_is_parse_failure
    (req : request) (jd : string) (resume_file : FileStorage)
    (api_result : value) (st1 : state)
    (before : list subscript) (key : string) (entries : list (string * value)) :
  valid_request req jd resume_file ->
  call_gemini_api_with_backoff (resume_payload jd (stream resume_file)) 5 built_state
  = (Ok api_result, st1) ->
  In (before, key) text_path_keys ->
  py_path api_result before = Ok (VDict entries) ->
  dict_lookup key entries = None ->
  (exists e, extract_text api_result = Raise e /\ exn_class_of e = KeyError)
  /\ analyze_resume req initial_state
     = (Ok (error_body "Failed to parse AI response.", 500), st1).
Proof.
  intros Hvalid Hcall Hpos Hbefore Hmissing.
  assert (Htext : extract_text api_result = Raise (mk_exn KeyError (py_repr (VStr key)))).
  { unfold extract_text. cbn [text_path_keys In] in Hpos.
    destruct Hpos as [H|[H|[H|[H|[]]]]]; injection H as <- <-.
    - cbn [py_path] in *. injection Hbefore as ->.
      cbn [py_getitem]. now rewrite Hmissing.
    - change [Key "candidates"; Index 0; Key "content"; Key "parts"; Index 0; Key "text"]
        with ([Key "candidates"; Index 0]
              ++ [Key "content"; Key "parts"; Index 0; Key "text"])%list.
      rewrite py_path_app, Hbefore. cbn [py_path py_getitem]. now rewrite Hmissing.
    - change [Key "candidates"; Index 0; Key "content"; Key "parts"; Index 0; Key "text"]
        with ([Key "candidates"; Index 0; Key "content"]
              ++ [Key "parts"; Index 0; Key "text"])%list.
      rewrite py_path_app, Hbefore. cbn [py_path py_getitem]. now rewrite Hmissing.
    - change [Key "candidates"; Index 0; Key "content"; Key "parts"; Index 0; Key "text"]
        with ([Key "candidates"; Index 0; Key "content"; Key "parts"; Index 0]
              ++ [Key "text"])%list.
      rewrite py_path_app, Hbefore. cbn [py_path py_getitem]. now rewrite Hmissing. }
  split; [eexists; split; [exact Htext | reflexivity]|].
  rewrite (analyze_resume_valid req jd resume_file _ _ Hvalid Hcall).
  unfold try_except.
  now rewrite (validate_handled api_result st1 _ Htext).
Qed.


(** X11. One request costs at most 5 requests to the service and at most
    15 seconds of sleep; every request sent carries the payload built from
    the request's own job description and upload, and a request that is
    not valid sends nothing. *)
Theorem handler_request_budget (req : request) :
  exists events,
    log (snd (analyze_resume req initial_state)) = events
    /\ (attempts_made events <= 5)%nat
    /\ total_seconds (sleeps events) <= 15
    /\ (forall payload, In payload (posted events) ->
          exists jd resume_file,
            valid_request req jd resume_file
            /\ payload = resume_payload jd (stream resume_file)).
Proof.
  assert (Hnone : forall r : result response,
             exists events,
               log (snd (r, initial_state)) = events
               /\ (attempts_made events <= 5)%nat
               /\ total_seconds (sleeps events) <= 15
               /\ (forall payload, In payload (posted events) ->
                     exists jd resume_file,
                       valid_request req jd resume_file
                       /\ payload = resume_payload jd (stream resume_file))).
  { intros r. exists []. cbn. repeat split; try lia. }
  destruct (multidict_get "job_description" (form req)) as [jd|] eqn:Hjd.
  2:{ unfold analyze_resume, try_except. rewrite Hjd. apply Hnone. }
  destruct (multidict_get "resume_pdf" (files req)) as [resume_file|] eqn:Hfile.
  2:{ unfold analyze_resume, try_except. rewrite Hjd, Hfile. apply Hnone. }
  destruct (str_truthy jd) eqn:Tjd.
  2:{ unfold analyze_resume, try_except. rewrite Hjd, Hfile, Tjd. apply Hnone. }
  destruct (file_truthy resume_file) eqn:Tfile.
  2:{ unfold analyze_resume, try_except. rewrite Hjd, Hfile, Tjd, Tfile. apply Hnone. }
  destruct (String.eqb (mimetype resume_file) "application/pdf") eqn:Hmime.
  2:{ unfold analyze_resume, try_except.
      rewrite Hjd, Hfile, Tjd, Tfile, Hmime. apply Hnone. }
  assert (Hvalid : valid_request req jd resume_file).
  { repeat split; trivial.
    - now apply str_truthy_true.
    - now apply str_truthy_true.
    - now apply String.eqb_eq. }
  destruct (call_outcome (resume_payload jd (stream resume_file)) 5 built_state)
    as (k & events & outcome & Hcall & Hk & Hposts & Hposted & Hsleeps & _); [lia|].
  rewrite (analyze_resume_valid req jd resume_file _ _ Hvalid Hcall).
  assert (Hevents : (attempts_made events <= 5)%nat
                    /\ total_seconds (sleeps events) <= 15
                    /\ (forall payload, In payload (posted events) ->
                          exists jd0 f0, valid_request req jd0 f0
                                         /\ payload = resume_payload jd0 (stream f0))).
  { split; [lia|]. split.
    - rewrite Hsleeps, total_backoff_delays.
      assert (2 ^ Z.of_nat k <= 2 ^ 4) by (apply Z.pow_le_mono_r; lia). lia.
    - intros p Hp. rewrite Hposted in Hp. apply repeat_spec in Hp. subst p.
      now exists jd, resume_file. }
  assert (Hprint : forall e,
             exists events0,
               log (snd (unexpected e (after built_state events))) = events0
               /\ (attempts_made events0 <= 5)%nat
               /\ total_seconds (sleeps events0) <= 15
               /\ (forall payload, In payload (posted events0) ->
                     exists jd0 f0, valid_request req jd0 f0
                                    /\ payload = resume_payload jd0 (stream f0))).
  { intros e.
    destruct (console_error ("An unexpected error occurred: " ++ exn_str e))
      as [refusal|] eqn:Hconsole.
    - rewrite (unexpected_raises e refusal) by exact Hconsole. cbn [snd].
      eexists; split; [reflexivity|]. exact Hevents.
    - rewrite unexpected_runs by exact Hconsole. cbn [snd].
      eexists; split; [reflexivity|].
      unfold after, built_state. cbn [log upload_read app].
      rewrite attempts_made_app, sleeps_app, posted_app. cbn [attempts_made filter
        is_post List.length sleeps posted]. rewrite !app_nil_r, Nat.add_0_r.
      exact Hevents. }
  destruct outcome as [api_result|e]; [|apply Hprint].
  unfold try_except.
  pose proof (extract_and_validate_state api_result (after built_state events)) as Hst.
  destruct (extract_and_validate api_result (after built_state events))
    as [[resp|e] st2]; cbn [snd] in Hst; subst st2.
  - cbn [snd]. eexists; split; [reflexivity|]. exact Hevents.
  - cbn [any_exception]. apply Hprint.
Qed.

(** X14. When the [text] of the reply is not a string, [json.loads] raises
    [TypeError], which the inner [except] does not name: a valid request is
    answered HTTP 500 by the last-resort handler, with the text of the
    exception and not with a fixed message. *)
Theorem non_text_part_is_unexpected_error
    (req : request) (jd : string) (resume_file : FileStorage)
    (api_result : value) (st1 : state) (part_text : value) :
  valid_request req jd resume_file ->
  call_gemini_api_with_backoff (resume_payload jd (stream resume_file)) 5 built_state
  = (Ok api_result, st1) ->
  extract_text api_result = Ok part_text ->
  is_text part_text = false ->
  let message := "the JSON object must be str, bytes or bytearray, not "
                 ++ type_name part_text in
  analyze_resume req initial_state
  = (Ok (error_body message, 500),
     after st1 [Print ("An unexpected error occurred: " ++ message)]).
Proof.
  intros Hvalid Hcall Htext Hshape message.
  rewrite (analyze_resume_valid req jd resume_file _ _ Hvalid Hcall).
  unfold extract_and_validate, try_except, bind, lift. rewrite Htext.
  destruct part_text; try discriminate;
    cbn [py_json_loads exn_class_of is_decode_or_key_error any_exception];
    now rewrite unexpected_runs by reflexivity.
Qed.

(** X15. When the text of the reply decodes to [null], a boolean or a
    number, the key test raises [TypeError]: a valid request is answered
    HTTP 500 by the last-resort handler, which prints the exception;
    neither a 200 nor one of the two fixed messages is produced by the
    validation. *)
Theorem scalar_report_is_unexpected_error
    (req : request) (jd : string) (resume_file : FileStorage)
    (api_result : value) (st1 : state) (text : string) (decoded : value) :
  valid_request req jd resume_file ->
  call_gemini_api_with_backoff (resume_payload jd (stream resume_file)) 5 built_state
  = (Ok api_result, st1) ->
  extract_text api_result = Ok (VStr text) ->
  json_loads text = Ok decoded ->
  is_scalar decoded = true ->
  exists message,
    all_in required_keys decoded = Raise (mk_exn TypeError message)
    /\ analyze_resume req initial_state
       = (Ok (error_body message, 500),
          after st1 [Print ("An unexpected error occurred: " ++ message)]).
Proof.
  intros Hvalid Hcall Htext Hloads Hscalar.
  rewrite (analyze_resume_valid req jd resume_file _ _ Hvalid Hcall).
  unfold extract_and_validate, try_except, bind, lift. rewrite Htext.
  cbn [py_json_loads]. rewrite Hloads.
  destruct decoded; try discriminate; eexists; (split; [reflexivity|]);
    cbn [all_in required_keys py_in exn_class_of is_decode_or_key_error any_exception];
    now rewrite unexpected_runs by reflexivity.
Qed.

End HandlerExtras.

(** ** The payload, further *)

(** X12. The payload determines the request it was built from: two
    payloads are equal only if the job descriptions are equal and the
    uploaded bytes are equal. *)
Theorem payload_determines_inputs
    (jd1 jd2 : string) (bytes1 bytes2 : list byte) :
  resume_payload jd1 bytes1 = resume_payload jd2 bytes2 ->
  jd1 = jd2 /\ bytes1 = bytes2.
Proof.
  unfold resume_payload, payload_of, inline_part.
  intros H. injection H as Hprompt Hdata. split.
  - exact Hprompt.
  - pose proof (b64decode_encode bytes1) as H1.
    rewrite Hdata, b64decode_encode in H1. now injection H1.
Qed.

Lemma b64_char_ascii (n : N) : (n < 64)%N -> (N_of_ascii (b64_char n) < 128)%N.
Proof.
  intros H. apply N.ltb_lt.
  apply (forall_below 64 (fun n => (N_of_ascii (b64_char n) <? 128)%N));
    [vm_compute; reflexivity | exact H].
Qed.

(** X13. The base64 text of [n] bytes has 4 * ceil(n / 3) characters, each
    of them the character of a six-bit group or the padding [=], and so an
    ASCII character: the text is valid UTF-8 whatever the bytes. *)
Theorem b64encode_shape (bs : list byte) :
  String.length (b64encode bs) = (4 * ((List.length bs + 2) / 3))%nat
  /\ forall c, In c (list_ascii_of_string (b64encode bs)) ->
       (c = b64_pad \/ exists n, (n < 64)%N /\ c = b64_char n)
       /\ (N_of_ascii c < 128)%N.
Proof.
  assert (Hgroup : forall n, (n < 64)%N ->
            (b64_char n = b64_pad \/ exists m, (m < 64)%N /\ b64_char n = b64_char m)
            /\ (N_of_ascii (b64_char n) < 128)%N).
  { intros n Hn. split; [right; now exists n | now apply b64_char_ascii]. }
  assert (Hpad : (b64_pad = b64_pad \/ exists m, (m < 64)%N /\ b64_pad = b64_char m)
                 /\ (N_of_ascii b64_pad < 128)%N).
  { split; [now left | reflexivity]. }
  induction bs as [ | a | a b | a b c rest IH] using three_step_induction.
  - split; [reflexivity | intros c []].
  - destruct (pair_facts a x00) as (B1 & B2 & _).
    change (Byte.to_N x00) with 0%N in *. rewrite <- sextet2_zero in B2.
    split; [reflexivity|].
    cbn [b64encode list_ascii_of_string In]. intros ch [<-|[<-|[<-|[<-|[]]]]]; auto.
  - destruct (pair_facts a b) as (B1 & B2 & _).
    destruct (pair_facts b x00) as (_ & _ & B3 & _).
    change (Byte.to_N x00) with 0%N in *. rewrite <- sextet3_zero in B3.
    split; [reflexivity|].
    cbn [b64encode list_ascii_of_string In]. intros ch [<-|[<-|[<-|[<-|[]]]]]; auto.
  - destruct (pair_facts a b) as (B1 & B2 & _).
    destruct (pair_facts b c) as (_ & _ & B3 & _).
    destruct (pair_facts c c) as (_ & _ & _ & B4 & _).
    destruct IH as [Hlen Hchars]. split.
    + rewrite b64encode_three. cbn [String.length List.length]. rewrite Hlen.
      replace (S (S (S (List.length rest))) + 2)%nat
        with (List.length rest + 2 + 1 * 3)%nat by lia.
      rewrite Nat.div_add by lia. lia.
    + rewrite b64encode_three. cbn [list_ascii_of_string In].
      intros ch [<-|[<-|[<-|[<-|Hin]]]]; auto.
Qed.

(** ** The further properties on worked examples *)



(** X3 with a bound of 0. *)
Lemma no_attempt_without_retries_witness :
  call_gemini_api_with_backoff (rt := rt_report) example_payload 0 built_state
  = (Ok VNone, built_state).
Proof.
  apply (no_attempt_without_retries (rt := rt_report) example_payload 0 built_state).
  lia.
Defined.

(** X4 on the service that always times out, with the default bound. *)
Lemma call_stays_within_budget_witness :
  exists (k : nat) (messages : nat -> string) (outcome : result value),
    let events :=
      (retry_events example_payload messages 0 k ++ [Post example_payload])%list in
    call_gemini_api_with_backoff (rt := rt_timeouts) example_payload 5 built_state
    = (outcome, after built_state events)
    /\ List.last events (Sleep 0) = Post example_payload
    /\ attempts_made events = S k
    /\ Z.of_nat (S k) <= 5
    /\ posted events = repeat example_payload (S k)
    /\ sleeps events = backoff_delays k
    /\ total_seconds (sleeps events) = 2 ^ Z.of_nat k - 1
    /\ total_seconds (sleeps events) < 2 ^ (5 - 1).
Proof.
  apply (call_stays_within_budget (rt := rt_timeouts) example_payload 5 built_state).
  lia.
Defined.


(** X6 on the service that answers with the report. *)
Lemma returned_body_is_error_free_witness :
  py_in "error" (reply_with_text example_report_text) = Ok false
  /\ reply_with_text example_report_text <> VNone
  /\ exists k, Z.of_nat k < 5
               /\ http_exchange (Runtime := rt_report)
                    (attempts_made (log built_state) + k) example_payload
                  = Ok (reply_with_text example_report_text).
Proof.
  apply (returned_body_is_error_free (rt := rt_report) example_payload 5 built_state
           (after built_state [Post example_payload])).
  - lia.
  - vm_compute. reflexivity.
Defined.

(** X7 on the reply [null]. *)
Lemma scalar_reply_raises_type_error_witness :
  exists message,
    call_gemini_api_with_backoff (rt := rt_null_reply) example_payload 5 built_state
    = (Raise (mk_exn TypeError message), after built_state [Post example_payload]).
Proof.
  apply (scalar_reply_raises_type_error (rt := rt_null_reply) example_payload 5
           built_state VNone).
  - lia.
  - reflexivity.
  - reflexivity.
Defined.

(** X8 on the reply whose [error] is a string. *)
Lemma non_object_error_raises_attribute_error_witness :
  call_gemini_api_with_backoff (rt := rt_error_string) example_payload 5 built_state
  = (Raise (mk_exn AttributeError "'str' object has no attribute 'get'"),
     after built_state [Post example_payload]).
Proof.
  apply (non_object_error_raises_attribute_error (rt := rt_error_string)
           example_payload 5 built_state
           [("error", VStr "quota exceeded")] (VStr "quota exceeded")).
  - lia.
  - reflexivity.
  - reflexivity.
  - reflexivity.
Defined.

(** X9 on a reply whose first part has no [text]. *)
Lemma missing_key_is_parse_failure_witness :
  analyze_resume (rt := rt_no_text) example_request initial_state
  = (Ok (error_body "Failed to parse AI response.", 500),
     after built_state [Post example_payload]).
Proof.
  apply (missing_key_is_parse_failure (rt := rt_no_text)
           example_request example_jd example_file
           (VDict [("candidates",
                    VList [VDict [("content",
                                   VDict [("parts", VList [VDict []])])]])])
           (after built_state [Post example_payload])
           [Key "candidates"; Index 0; Key "content"; Key "parts"; Index 0]
           "text" []).
  - exact example_request_valid.
  - vm_compute. reflexivity.
  - cbn. tauto.
  - reflexivity.
  - reflexivity.
Defined.


(** X12 on the payload of the example. *)
Lemma payload_determines_inputs_witness :
  example_jd = example_jd /\ example_pdf = example_pdf.
Proof.
  apply (payload_determines_inputs example_jd example_jd example_pdf example_pdf).
  reflexivity.
Defined.

(** X14 on a reply whose [text] is the number 7. *)
Lemma non_text_part_is_unexpected_error_witness :
  analyze_resume (rt := rt_numeric_text) example_request initial_state
  = (Ok (error_body "the JSON object must be str, bytes or bytearray, not int", 500),
     after built_state
       [Post example_payload;
        Print ("An unexpected error occurred: "
               ++ "the JSON object must be str, bytes or bytearray, not int")]).
Proof.
  apply (non_text_part_is_unexpected_error (rt := rt_numeric_text)
           example_request example_jd example_file
           (VDict [("candidates",
                    VList [VDict [("content",
                                   VDict [("parts",
                                           VList [VDict [("text", VInt 7)]])])]])])
           (after built_state [Post example_payload]) (VInt 7)).
  - exact example_request_valid.
  - vm_compute. reflexivity.
  - reflexivity.
  - reflexivity.
Defined.

(** X15 on a reply whose text decodes to the number 42. *)
Lemma scalar_report_is_unexpected_error_witness :
  exists message,
    all_in required_keys (VInt 42) = Raise (mk_exn TypeError message)
    /\ analyze_resume (rt := rt_number_report) example_request initial_state
       = (Ok (error_body message, 500),
          after (after built_state [Post example_payload])
            [Print ("An unexpected error occurred: " ++ message)]).
Proof.
  apply (scalar_report_is_unexpected_error (rt := rt_number_report)
           example_request example_jd example_file
           (reply_with_text "42") (after built_state [Post example_payload])
           "42" (VInt 42)).
  - exact example_request_valid.
  - vm_compute. reflexivity.
  - reflexivity.
  - reflexivity.
  - reflexivity.
Defined.

(** X16 on a PDF upload without a file name. *)
Lemma unnamed_upload_rejected_witness :
  analyze_resume (rt := rt_report) example_unnamed_request initial_state
  = (Ok (error_body "Missing job description or resume file.", 400), initial_state).
Proof.
  apply (unnamed_upload_rejected (rt := rt_report) example_unnamed_request
           example_unnamed_file initial_state).
  - reflexivity.
  - reflexivity.
Defined.
